(** * gemini-game-app: the agent's two tools

    A shallow embedding of [tools.js]: the Query Gateway
    ([run_mysql_query]) and the Speech Container Encoder
    ([generate_and_save_audio]), with the properties of their
    specification stated over the embedding; and of what stands around
    them: the settings and chat routes of [server.js] and the chat form
    of [public/script.js].

    Conventions of the embedding.
    - A JavaScript string is a [string]: its characters are the code
      units below 256 (ASCII and Latin-1), which is where every keyword,
      pattern and message of the tools lives.
    - A JavaScript number is an exact integer ([Z]) or rational ([Q]);
      the tools only add, multiply and divide by 8, which IEEE doubles do
      exactly while the values stay below 2^53.
    - An [async] function is a computation in a small monad that threads
      the local variables and the log of calls made to the external
      collaborators, and completes normally or by throwing (a rejected
      promise). [console.log] and [console.error] are not modelled. *)

From Stdlib Require Import ZArith QArith String Ascii Strings.Byte DecimalString
  DecimalPos.
From stdpp Require Import base list strings.

Local Open Scope Z_scope.
Local Open Scope string_scope.

(** ** JavaScript strings *)

Module JsString.

Definition LF : string := String (ascii_of_nat 10) EmptyString.

(** WhiteSpace and LineTerminator code units below 256:
    TAB, LF, VT, FF, CR, SP and NBSP. *)
Definition isWhiteSpace (c : ascii) : bool :=
  let n := nat_of_ascii c in
  ((9 <=? n) && (n <=? 13) || (n =? 32) || (n =? 160))%nat.

Definition isUpper (c : ascii) : bool :=
  let n := nat_of_ascii c in
  ((65 <=? n) && (n <=? 90)
   || (192 <=? n) && (n <=? 222) && negb (n =? 215))%nat.

Definition lowerChar (c : ascii) : ascii :=
  if isUpper c then ascii_of_nat (nat_of_ascii c + 32) else c.

Fixpoint toLowerCase (s : string) : string :=
  match s with
  | EmptyString => EmptyString
  | String c r => String (lowerChar c) (toLowerCase r)
  end.

Fixpoint trimStart (s : string) : string :=
  match s with
  | EmptyString => EmptyString
  | String c r => if isWhiteSpace c then trimStart r else s
  end.

(** [trimEnd] drops the trailing run of white space: a character is
    kept when something that is kept follows it or it is not white
    space itself. *)
Fixpoint trimEnd (s : string) : string :=
  match s with
  | EmptyString => EmptyString
  | String c r =>
      match trimEnd r with
      | EmptyString => if isWhiteSpace c then EmptyString
                       else String c EmptyString
      | r' => String c r'
      end
  end.

Definition trim (s : string) : string := trimEnd (trimStart s).

(** [s.startsWith(p)] *)
Definition startsWith (s p : string) : bool := String.prefix p s.

(** [s.includes(p)] *)
Definition includes (s p : string) : bool :=
  match String.index 0 p s with Some _ => true | None => false end.

(** [parts.join(sep)] *)
Fixpoint join (sep : string) (parts : list string) : string :=
  match parts with
  | [] => ""
  | [p] => p
  | p :: rest => p +:+ sep +:+ join sep rest
  end.

(** [`${n}`] for a safe integer [n], below 2^53 in absolute value,
    which JavaScript prints digit for digit (beyond, it prints the
    shortest digits of the double, and from 10^21 on an exponent). *)
Definition ofZ (n : Z) : string := NilZero.string_of_int (Z.to_int n).

Definition ofNat (n : nat) : string := ofZ (Z.of_nat n).

End JsString.

Import JsString.

(** ** Completions and the monad of the tools *)

(** A thrown value: an [Error] object with its optional [code] (set by
    the database driver) and its [message]. *)
Record Error := mkError { code : option string; message : string }.

Definition TypeError (msg : string) : Error :=
  {| code := None; message := msg |}.

Definition RangeError (msg : string) : Error :=
  {| code := None; message := msg |}.

Inductive completion (A : Type) : Type :=
| Normal (a : A)
| Throw (e : Error).
Arguments Normal {A} a.
Arguments Throw {A} e.

(** A computation over a frame [S] (local variables and the log of
    external calls): it ends normally or throws, and leaves a frame. *)
Definition M (S A : Type) : Type := S -> completion A * S.

#[export] Instance M_ret {S} : MRet (M S) :=
  fun A (a : A) s => (Normal a, s).

#[export] Instance M_bind {S} : MBind (M S) :=
  fun A B (k : A -> M S B) (c : M S A) s =>
    match c s with
    | (Normal a, s') => k a s'
    | (Throw e, s') => (Throw e, s')
    end.

Definition throw {S A} (e : Error) : M S A := fun s => (Throw e, s).

(** [await p] for a promise that is already settled. *)
Definition await {S A} (p : completion A) : M S A := fun s => (p, s).

(** [try { body } catch (error) { handler }] *)
Definition try_catch {S A} (body : M S A) (handler : Error -> M S A) : M S A :=
  fun s =>
    match body s with
    | (Normal a, s') => (Normal a, s')
    | (Throw e, s') => handler e s'
    end.

(** [try { body } finally { fin }]: [fin] runs whatever [body] did; when
    [fin] throws, its exception replaces the completion of [body]. *)
Definition try_finally {S A} (body : M S A) (fin : M S unit) : M S A :=
  fun s =>
    match body s with
    | (r, s') =>
        match fin s' with
        | (Normal _, s'') => (r, s'')
        | (Throw e, s'') => (Throw e, s'')
        end
    end.

(** ** The Query Gateway *)

Module QueryGateway.

(** A column value as the driver hands it over; [SqlOther] stands for a
    value of another type (a date, a decimal, ...) and carries what
    the template literal renders for it. *)
Inductive SqlValue : Type :=
| SqlNull
| SqlNumber (n : Z)
| SqlString (s : string)
| SqlOther (rendered : string).

Definition toString (v : SqlValue) : string :=
  match v with
  | SqlNull => "null"
  | SqlNumber n => ofZ n
  | SqlString s => s
  | SqlOther r => r
  end.

(** A row object: its own properties in column order. *)
Definition Row : Type := list (string * SqlValue).

(** What [connection.execute] resolves to (its first component): a
    result header for statements that change data, the rows for
    statements that read. *)
Inductive ExecResult : Type :=
| ResultSetHeader (affectedRows insertId : Z)
| RowSet (rows : list Row).

Inductive Connection : Type := TheConnection.

(** The database collaborator: how each of its three operations
    settles during one invocation. *)
Record Database : Type := {
  db_createConnection : completion Connection;
  db_execute : string -> completion ExecResult;
  db_end : completion unit
}.

Inductive DbEvent : Type :=
| CreateConnection
| Execute (sql : string)
| ConnectionEnd.

(** The local variable [connection] and the log of database calls. *)
Record Frame : Type := {
  connection : option Connection;
  calls : list DbEvent
}.

Definition initial : Frame := {| connection := None; calls := [] |}.

Definition logged (ev : DbEvent) (fr : Frame) : Frame :=
  {| connection := connection fr; calls := calls fr ++ [ev] |}.

Definition createConnection (db : Database) : M Frame Connection :=
  fun fr => (db_createConnection db, logged CreateConnection fr).

Definition execute (db : Database) (sql : string) : M Frame ExecResult :=
  fun fr => (db_execute db sql, logged (Execute sql) fr).

Definition connection_end (db : Database) : M Frame unit :=
  fun fr => (db_end db, logged ConnectionEnd fr).

Definition set_connection (c : Connection) : M Frame unit :=
  fun fr => (Normal tt, {| connection := Some c; calls := calls fr |}).

Definition get_connection : M Frame (option Connection) :=
  fun fr => (Normal (connection fr), fr).

Definition refusal : string :=
  "Only SELECT, DESCRIBE, INSERT and SHOW queries are allowed for security reasons.".

Definition no_results : string :=
  "Query executed successfully but returned no results. The table might be empty or your conditions did not match any records.".

Definition no_rows_affected : string :=
  "Query executed successfully but no rows were affected.".

(** [Object.entries(row).map(([key, value]) => `${key}: ${value}`).join(', ')] *)
Definition rowData (row : Row) : string :=
  join ", " (map (fun '(key, value) => key +:+ ": " +:+ toString value) row).

(** The callback of [rows.map]: [`Row ${index + 1}: {${rowData}}`]. *)
Definition formatRow (index : nat) (row : Row) : string :=
  "Row " +:+ ofNat (index + 1) +:+ ": {" +:+ rowData row +:+ "}".

(** The rendering of a fetched array of rows (lines 46-71). *)
Definition render (rows : list Row) : string :=
  if (length rows =? 0)%nat then no_results
  else if (length rows <=? 10)%nat then
    let formattedRows := join LF (imap formatRow rows) in
    "Found " +:+ ofNat (length rows) +:+ " record(s):" +:+ LF +:+ formattedRows
  else
    let sample := join LF (imap formatRow (take 5 rows)) in
    "Found " +:+ ofNat (length rows) +:+ " record(s). Showing first 5:" +:+ LF
      +:+ sample +:+ LF +:+ "... and " +:+ ofNat (length rows - 5)
      +:+ " more records.".

(** [error.code === name] *)
Definition code_is (error : Error) (name : string) : bool :=
  match code error with
  | Some c => String.eqb c name
  | None => false
  end.

(** The [catch] block (lines 73-82). *)
Definition describe_error (error : Error) : string :=
  if code_is error "ER_NO_SUCH_TABLE" then
    "Table not found. Please check the table name. Available tables might include: games, cards etc."
  else if code_is error "ER_BAD_FIELD_ERROR" then
    "Column not found. Please check your column names. Use DESCRIBE tablename to see available columns."
  else
    "Database error: " +:+ message error +:+ ". Please check your SQL syntax.".

Definition run_mysql_query (db : Database) (query : string) : M Frame string :=
  let cleanQuery := trim query in
  if negb (startsWith (toLowerCase cleanQuery) "select") &&
     negb (startsWith (toLowerCase cleanQuery) "describe") &&
     negb (startsWith (toLowerCase cleanQuery) "insert") &&
     negb (startsWith (toLowerCase cleanQuery) "show")
  then mret refusal
  else
    try_finally
      (try_catch
         (c ← createConnection db;
          _ ← set_connection c;
          if startsWith (toLowerCase cleanQuery) "insert" then
            result ← execute db cleanQuery;
            match result with
            | ResultSetHeader affectedRows insertId =>
                if (0 <? affectedRows)%Z then
                  mret ("Query executed successfully. " +:+ ofZ affectedRows
                          +:+ " row(s) affected. Insert ID: " +:+ ofZ insertId)
                else mret no_rows_affected
            | RowSet _ =>
                (* an array has no affectedRows: undefined > 0 is false *)
                mret no_rows_affected
            end
          else
            rows ← execute db cleanQuery;
            match rows with
            | RowSet rows => mret (render rows)
            | ResultSetHeader _ _ =>
                (* a header has no length and no slice *)
                throw (TypeError "rows.slice is not a function")
            end)
         (fun error => mret (describe_error error)))
      (c ← get_connection;
       match c with
       | Some _ => connection_end db
       | None => mret tt
       end).

(** One invocation of the tool: its completion and the database calls
    it made, in order. *)
Definition invoke (db : Database) (query : string)
  : completion string * list DbEvent :=
  let '(r, fr) := run_mysql_query db query initial in (r, calls fr).

(** *** Vocabulary of the statements about the gateway *)

(** The collaborator that settles its three operations as given,
    whatever the statement. *)
Definition database (conn : completion Connection)
  (exec : completion ExecResult) (fin : completion unit) : Database :=
  {| db_createConnection := conn; db_execute := fun _ => exec; db_end := fin |}.

(** The statement's leading token, in the words of the specification:
    trim the statement, lowercase it, and take the characters up to the
    first white space. *)
Fixpoint takeToken (s : string) : string :=
  match s with
  | EmptyString => EmptyString
  | String c r => if isWhiteSpace c then EmptyString else String c (takeToken r)
  end.

Definition leadingToken (statement : string) : string :=
  takeToken (toLowerCase (trim statement)).

Definition isKeyword (token : string) : bool :=
  String.eqb token "select" || String.eqb token "describe"
  || String.eqb token "insert" || String.eqb token "show".

(** The statement starts with one of the keywords that read. *)
Definition reads (query : string) : bool :=
  let q := toLowerCase (trim query) in
  startsWith q "select" || startsWith q "describe" || startsWith q "show".

(** What the [try] block returns once the statement has executed. *)
Definition rendered (insert : bool) (result : ExecResult)
  : completion string :=
  match insert, result with
  | true, ResultSetHeader affectedRows insertId =>
      if (0 <? affectedRows)%Z then
        Normal ("Query executed successfully. " +:+ ofZ affectedRows
                  +:+ " row(s) affected. Insert ID: " +:+ ofZ insertId)
      else Normal no_rows_affected
  | true, RowSet _ => Normal no_rows_affected
  | false, RowSet rows => Normal (render rows)
  | false, ResultSetHeader _ _ =>
      Throw (TypeError "rows.slice is not a function")
  end.

Definition caught (r : completion string) : string :=
  match r with
  | Normal s => s
  | Throw e => describe_error e
  end.



Definition quiet : Database :=
  database (Normal TheConnection) (Normal (RowSet [])) (Normal tt).


Definition eleven : list Row := replicate 11 [("id", SqlNumber 7); ("note", SqlNull)].

Definition connection_lost : Error :=
  {| code := Some "PROTOCOL_CONNECTION_LOST";
     message := "Connection lost: The server closed the connection." |}.

End QueryGateway.

(** ** JSON values and the accesses the encoder makes *)

Module Json.

#[warnings="-register-all"] Inductive json : Type :=
| JNull
| JBool (b : bool)
| JNumber (q : Q)
| JString (s : string)
| JArray (items : list json)
| JObject (props : list (string * json)).

(** A JavaScript value read out of a parsed response: [None] is
    [undefined]. *)
Definition value : Type := option json.

Fixpoint own (props : list (string * json)) (name : string) : value :=
  match props with
  | [] => None
  | (k, v) :: rest => if String.eqb k name then Some v else own rest name
  end.

(** [v?.name] for the property names the encoder reads (none of them
    is defined on a string, an array, a number or a boolean). *)
Definition prop (name : string) (v : value) : value :=
  match v with
  | Some (JObject props) => own props name
  | _ => None
  end.

(** [v?.[0]] *)
Definition first (v : value) : value :=
  match v with
  | Some (JArray items) => items !! 0%nat
  | Some (JString (String c _)) => Some (JString (String c EmptyString))
  | Some (JObject props) => own props "0"
  | _ => None
  end.

(** ToBoolean *)
Definition truthy (v : value) : bool :=
  match v with
  | None | Some JNull => false
  | Some (JBool b) => b
  | Some (JNumber q) => negb (Qnum q =? 0)%Z
  | Some (JString s) => negb (String.eqb s "")
  | Some (JArray _) | Some (JObject _) => true
  end.

End Json.

Import Json.

(** ** Regular expressions of the form [/lit(\d+)/] and [parseInt] *)

Module JsRegExp.

Definition isDigit (c : ascii) : bool :=
  let n := nat_of_ascii c in ((48 <=? n) && (n <=? 57))%nat.

(** The longest run of digits a string begins with: what [\d+]
    consumes, being greedy. *)
Fixpoint digits (s : string) : string :=
  match s with
  | String c r => if isDigit c then String c (digits r) else EmptyString
  | EmptyString => EmptyString
  end.

Fixpoint skip (n : nat) (s : string) : string :=
  match n, s with
  | S n', String _ r => skip n' r
  | _, _ => s
  end.

(** An attempt to match [/lit(\d+)/] at the very start of [s]; the
    result is the capture group. *)
Definition match_here (lit s : string) : option string :=
  if startsWith s lit then
    match digits (skip (String.length lit) s) with
    | EmptyString => None
    | d => Some d
    end
  else None.

(** [s.match(/lit(\d+)/)?.[1]]: the capture of the leftmost match,
    [None] ([undefined]) when the pattern matches nowhere. *)
Fixpoint match_digits (lit s : string) : option string :=
  match match_here lit s with
  | Some d => Some d
  | None =>
      match s with
      | EmptyString => None
      | String _ r => match_digits lit r
      end
  end.

Definition digitValue (c : ascii) : Z := Z.of_nat (nat_of_ascii c) - 48.

Fixpoint parseDigits (acc : Z) (s : string) : Z :=
  match s with
  | String c r =>
      if isDigit c then parseDigits (10 * acc + digitValue c) r else acc
  | EmptyString => acc
  end.

(** [parseInt(s, 10)] for a string that begins with a digit, the only
    kind the encoder passes. The value is exact; JavaScript rounds it to
    the nearest double from 2^53 on, and the statements that expose a
    derived number bound it below that. *)
Definition parseInt (s : string) : Z := parseDigits 0 s.

(** [capture || fallback], the fallback number being turned into its
    decimal string by [parseInt]. *)
Definition or_else (capture : option string) (fallback : Z) : string :=
  match capture with
  | Some s => if String.eqb s "" then ofZ fallback else s
  | None => ofZ fallback
  end.

End JsRegExp.

Import JsRegExp.

(** ** ArrayBuffer and DataView *)

Module DataView.

(** ToIntegerOrInfinity on a finite number: truncation towards zero. *)
Definition truncate (x : Q) : Z := Z.quot (Qnum x) (Z.pos (Qden x)).

Definition ToUint32 (x : Q) : Z := truncate x mod 2 ^ 32.
Definition ToUint16 (x : Q) : Z := truncate x mod 2 ^ 16.

(** The byte holding the low eight bits of [z]. *)
Definition byte_of_Z (z : Z) : byte :=
  match Byte.of_N (Z.to_N (Z.land z 255)) with
  | Some b => b
  | None => x00
  end.

Definition Z_of_byte (b : byte) : Z := Z.of_N (Byte.to_N b).

(** [new ArrayBuffer(n)] *)
Definition ArrayBuffer (n : nat) : list byte := replicate n x00.

(** The bytes of an unsigned integer, least significant first. *)
Fixpoint rawBytes (size : nat) (n : Z) : list byte :=
  match size with
  | O => []
  | S size' => byte_of_Z n :: rawBytes size' (Z.shiftr n 8)
  end.

Fixpoint store (byteOffset : nat) (bytes : list byte) (buf : list byte)
  : list byte :=
  match bytes with
  | [] => buf
  | b :: rest => store (S byteOffset) rest (<[byteOffset := b]> buf)
  end.

(** SetViewValue: a [RangeError] when the element does not fit in the
    buffer, otherwise the bytes in the requested order. *)
Definition setValue (size byteOffset : nat) (n : Z) (littleEndian : bool)
  : M (list byte) unit :=
  fun buf =>
    if (byteOffset + size <=? length buf)%nat then
      let raw := rawBytes size n in
      (Normal tt,
       store byteOffset (if littleEndian then raw else reverse raw) buf)
    else
      (Throw (RangeError "Offset is outside the bounds of the DataView"), buf).

Definition setUint32 (byteOffset : nat) (value : Q) (littleEndian : bool)
  : M (list byte) unit :=
  setValue 4 byteOffset (ToUint32 value) littleEndian.

Definition setUint16 (byteOffset : nat) (value : Q) (littleEndian : bool)
  : M (list byte) unit :=
  setValue 2 byteOffset (ToUint16 value) littleEndian.

(** Reading back, for the statements: the little-endian unsigned
    integer of [size] bytes at [byteOffset], when the buffer has them. *)
Fixpoint fromBytesLE (bytes : list byte) : Z :=
  match bytes with
  | [] => 0
  | b :: rest => Z_of_byte b + 256 * fromBytesLE rest
  end.

Definition getLE (size byteOffset : nat) (buf : list byte) : option Z :=
  if (byteOffset + size <=? length buf)%nat
  then Some (fromBytesLE (take size (drop byteOffset buf)))
  else None.

Definition getUint32LE := getLE 4.
Definition getUint16LE := getLE 2.

(** The bytes of an ASCII tag, in order. *)
Definition tag (s : string) : list byte :=
  map byte_of_ascii (list_ascii_of_string s).

Definition slice (from to : nat) (buf : list byte) : list byte :=
  take (to - from) (drop from buf).

End DataView.

Import DataView.

(** ** The Speech Container Encoder *)

Module SpeechEncoder.

(** What [fetch] resolves to; only [response.json()] is used. *)
Record Response : Type := { response_json : completion json }.

(** The collaborators of one invocation: the environment, the file
    system, the speech API, Node's [Buffer.from(_, 'base64')] and the
    identifier [uuidv4()] hands out. *)
Record Runtime : Type := {
  GEMINI_API_KEY : option string;
  fs_mkdir : string -> completion unit;
  net_fetch : string -> json -> completion Response;
  Buffer_from_base64 : value -> completion (list byte);
  uuidv4 : string;
  fs_writeFile : string -> list byte -> completion unit
}.

Inductive Event : Type :=
| Mkdir (dir : string)
| Fetch (url : string) (payload : json)
| WriteFile (path : string) (data : list byte).

Definition Log : Type := list Event.

Definition mkdir (rt : Runtime) (dir : string) : M Log unit :=
  fun log => (fs_mkdir rt dir, (log ++ [Mkdir dir])%list).

Definition fetch (rt : Runtime) (url : string) (payload : json)
  : M Log Response :=
  fun log => (net_fetch rt url payload, (log ++ [Fetch url payload])%list).

Definition writeFile (rt : Runtime) (path : string) (data : list byte)
  : M Log unit :=
  fun log => (fs_writeFile rt path data, (log ++ [WriteFile path data])%list).

(** [path.join(dir, name)] on POSIX, for a file name without
    separators. *)
Definition path_join (dir name : string) : string := dir +:+ "/" +:+ name.

(** [mimeType.match(/lit(\d+)/)?.[1]]: only a string has [match]. *)
Definition string_match {S} (mimeType : value) (lit : string)
  : M S (option string) :=
  match mimeType with
  | Some (JString s) => mret (match_digits lit s)
  | None =>
      throw (TypeError "Cannot read properties of undefined (reading 'match')")
  | Some JNull =>
      throw (TypeError "Cannot read properties of null (reading 'match')")
  | Some _ => throw (TypeError "mimeType.match is not a function")
  end.

(** Running a block that works on a local object of its own. *)
Definition with_local {S L A} (init : L) (block : M L A) : M S L :=
  fun s =>
    match block init with
    | (Normal _, l) => (Normal l, s)
    | (Throw e, _) => (Throw e, s)
    end.

Definition numChannels : Z := 1.

Definition bytesPerSample (bitsPerSample : Z) : Q :=
  (inject_Z bitsPerSample / inject_Z 8)%Q.

Definition blockAlign (bitsPerSample : Z) : Q :=
  (inject_Z numChannels * bytesPerSample bitsPerSample)%Q.

Definition byteRate (sampleRate bitsPerSample : Z) : Q :=
  (inject_Z sampleRate * blockAlign bitsPerSample)%Q.

(** The writes through [view] (lines 158-177). *)
Definition writeHeader (sampleRate bitsPerSample : Z) (dataSize : nat)
  : M (list byte) unit :=
  let chunkSize := 36 + Z.of_nat dataSize in
  (* RIFF chunk *)
  _ ← setUint32 0 (inject_Z 0x52494646) false;
  _ ← setUint32 4 (inject_Z chunkSize) true;
  _ ← setUint32 8 (inject_Z 0x57415645) false;
  (* fmt chunk *)
  _ ← setUint32 12 (inject_Z 0x666d7420) false;
  _ ← setUint32 16 (inject_Z 16) true;
  _ ← setUint16 20 (inject_Z 1) true;
  _ ← setUint16 22 (inject_Z numChannels) true;
  _ ← setUint32 24 (inject_Z sampleRate) true;
  _ ← setUint32 28 (byteRate sampleRate bitsPerSample) true;
  _ ← setUint16 32 (blockAlign bitsPerSample) true;
  _ ← setUint16 34 (inject_Z bitsPerSample) true;
  _ ← setUint32 36 (inject_Z 0x64617461) false;
  setUint32 40 (inject_Z (Z.of_nat dataSize)) true.

Definition sampleRateOf (mimeType : string) : Z :=
  parseInt (or_else (match_digits "rate=" mimeType) 24000).

Definition bitsPerSampleOf (mimeType : string) : Z :=
  parseInt (or_else (match_digits "audio/L" mimeType) 16).

Definition no_audio : string := "No audio data was returned.".

Definition request (text voice_name : string) : json :=
  JObject
    [("contents", JArray [JObject [("parts", JArray [JObject [("text", JString text)]])]]);
     ("generationConfig",
       JObject
         [("responseModalities", JArray [JString "AUDIO"]);
          ("speechConfig",
            JObject [("voiceConfig",
              JObject [("prebuiltVoiceConfig",
                JObject [("voiceName", JString voice_name)])])])]);
     ("model", JString "gemini-2.5-flash-preview-tts")].

(** [apiUrl], with [process.env.GEMINI_API_KEY] spliced in. *)
Definition apiUrl (rt : Runtime) : string :=
  "https://generativelanguage.googleapis.com/v1beta/models/gemini-2.5-flash-preview-tts:generateContent?key="
    +:+ default "undefined" (GEMINI_API_KEY rt).

(** [result?.candidates?.[0]?.content?.parts?.[0]] *)
Definition part (result : json) : value :=
  first (prop "parts" (prop "content" (first (prop "candidates" (Some result))))).

(** [part?.inlineData?.data] *)
Definition audioData (result : json) : value :=
  prop "data" (prop "inlineData" (part result)).

(** [part?.inlineData?.mimeType] *)
Definition mimeType (result : json) : value :=
  prop "mimeType" (prop "inlineData" (part result)).

Definition outputDir : string := "sounds".

(** [path.join(outputDir, `audio_output_${uuidv4()}.wav`)] *)
Definition filePath (rt : Runtime) : string :=
  path_join outputDir ("audio_output_" +:+ uuidv4 rt +:+ ".wav").

Definition generate_and_save_audio
  (rt : Runtime) (text : string) (voice_name : option string) : M Log string :=
  let voice_name := default "Charon" voice_name in
  try_catch
    (_ ← mkdir rt outputDir;
     let payload := request text voice_name in
     response ← fetch rt (apiUrl rt) payload;
     result ← await (response_json response);
     if negb (truthy (audioData result)) || negb (truthy (mimeType result))
     then mret no_audio
     else
       (* The API returns raw PCM audio data, to be wrapped in a WAV header. *)
       rate ← string_match (mimeType result) "rate=";
       let sampleRate := parseInt (or_else rate 24000) in
       bits ← string_match (mimeType result) "audio/L";
       let bitsPerSample := parseInt (or_else bits 16) in
       pcmData ← await (Buffer_from_base64 rt (audioData result));
       let dataSize := length pcmData in
       wavHeader ← with_local (ArrayBuffer 44)
                     (writeHeader sampleRate bitsPerSample dataSize);
       let wavBuffer := (wavHeader ++ pcmData)%list in
       _ ← writeFile rt (filePath rt) wavBuffer;
       mret ("Audio successfully saved to: " +:+ filePath rt))
    (fun error =>
       mret ("An error occurred during audio generation: " +:+ message error)).

(** One invocation of the tool: its completion and the calls it made to
    the file system and the network, in order. *)
Definition synthesize (rt : Runtime) (text : string) (voice_name : option string)
  : completion string * Log :=
  generate_and_save_audio rt text voice_name [].

(** *** Vocabulary of the statements about the encoder *)

(** The bytes [writeHeader] leaves in a fresh 44-byte buffer. *)
Definition headerOf (sampleRate bitsPerSample : Z) (dataSize : nat) : list byte :=
  tag "RIFF" ++ rawBytes 4 (ToUint32 (inject_Z (36 + Z.of_nat dataSize)))
  ++ tag "WAVE"
  ++ tag "fmt " ++ rawBytes 4 (ToUint32 (inject_Z 16))
  ++ rawBytes 2 (ToUint16 (inject_Z 1))
  ++ rawBytes 2 (ToUint16 (inject_Z numChannels))
  ++ rawBytes 4 (ToUint32 (inject_Z sampleRate))
  ++ rawBytes 4 (ToUint32 (byteRate sampleRate bitsPerSample))
  ++ rawBytes 2 (ToUint16 (blockAlign bitsPerSample))
  ++ rawBytes 2 (ToUint16 (inject_Z bitsPerSample))
  ++ tag "data" ++ rawBytes 4 (ToUint32 (inject_Z (Z.of_nat dataSize))).

(** The doubles of the program hold the derived numbers, and their
    product, exactly: all are below 2^53. *)
Definition representable (sampleRate bitsPerSample : Z) : Prop :=
  sampleRate < 2 ^ 53 /\ bitsPerSample < 2 ^ 53
  /\ sampleRate * bitsPerSample < 2 ^ 53.

(** The file the encoder assembles for a descriptor and a payload. *)
Definition wavBuffer (mime : string) (pcm : list byte) : list byte :=
  headerOf (sampleRateOf mime) (bitsPerSampleOf mime) (length pcm) ++ pcm.

(** The speech API answered, and its first part carries a payload that
    decodes to [pcm] under the non-empty descriptor [mime]. *)
Definition delivers (rt : Runtime) (text : string) (voice_name : option string)
  (mime : string) (pcm : list byte) : Prop :=
  exists response result,
    fs_mkdir rt outputDir = Normal tt
    /\ net_fetch rt (apiUrl rt) (request text (default "Charon" voice_name))
       = Normal response
    /\ response_json response = Normal result
    /\ truthy (audioData result) = true
    /\ mimeType result = Some (JString mime)
    /\ mime <> ""
    /\ Buffer_from_base64 rt (audioData result) = Normal pcm.

(** [/lit(\d+)/] matches somewhere in [mime]: the literal occurs,
    followed by a digit. *)
Definition occurs (lit mime : string) : Prop :=
  exists before digit after,
    mime = before +:+ lit +:+ String digit after /\ isDigit digit = true.

Definition answer (mime data : string) : json :=
  JObject [("candidates", JArray [JObject [("content", JObject [("parts",
    JArray [JObject [("inlineData",
      JObject [("mimeType", JString mime); ("data", JString data)])]])])]])].

(** A runtime in which every collaborator succeeds: the API answers
    with the descriptor [mime] and the payload decodes to [pcm]. *)
Definition studio (mime : string) (pcm : list byte) : Runtime :=
  {| GEMINI_API_KEY := Some "k3y";
     fs_mkdir := fun _ => Normal tt;
     net_fetch := fun _ _ => Normal {| response_json := Normal (answer mime "AQIDBA==") |};
     Buffer_from_base64 := fun _ => Normal pcm;
     uuidv4 := "1b9d6bcd-bbfd-4b2d-9b5d-ab8dfbbd4bed";
     fs_writeFile := fun _ _ => Normal tt |}.

(** The data of the first file an invocation wrote, if any. *)
Fixpoint written (log : Log) : option (list byte) :=
  match log with
  | [] => None
  | WriteFile _ data :: _ => Some data
  | _ :: rest => written rest
  end.

Definition mimeL12 : string := "audio/L12;codec=pcm;rate=24000".

(** A runtime whose speech API answers with [result]. *)
Definition answering (result : json) : Runtime :=
  {| GEMINI_API_KEY := None;
     fs_mkdir := fun _ => Normal tt;
     net_fetch := fun _ _ => Normal {| response_json := Normal result |};
     Buffer_from_base64 := fun _ => Normal [];
     uuidv4 := "6ec0bd7f-11c0-43da-975e-2a8ad9ebae0b";
     fs_writeFile := fun _ _ => Normal tt |}.

End SpeechEncoder.

(** ** Descriptors, for the statements *)

Module Descriptor.

(** Nothing more to read for [\d+]: the text is over or goes on with a
    character that is no digit. *)
Definition stops (rest : string) : Prop :=
  match rest with
  | EmptyString => True
  | String c _ => isDigit c = false
  end.

(** The character [c0] is nowhere in [s]. *)
Fixpoint avoids (c0 : ascii) (s : string) : bool :=
  match s with
  | EmptyString => true
  | String c r => negb (Ascii.eqb c c0) && avoids c0 r
  end.

(** The descriptor the speech API sends, for a bit depth and a rate. *)
Definition descriptor (bits rate : Z) : string :=
  "audio/L" +:+ ofZ bits +:+ ";codec=pcm;rate=" +:+ ofZ rate.

End Descriptor.

(** ** The chat server *)

Module Server.

(** What [getChatModel] constructs. *)
Inductive ChatModel : Type :=
| ChatOpenAI (model : string) (apiKey baseURL : option string) (temperature : Z)
| ChatGoogleGenerativeAI (model : string) (apiKey : option string)
    (temperature : Z).

(** [process.env] *)
Record Env : Type := {
  OPENAI_API_KEY : option string;
  OPENAI_API_BASE_URL : option string;
  GEMINI_API_KEY : option string
}.

(** An entry of [chatHistory]: [new HumanMessage(message)] or
    [new AIMessage(result.output)]. *)
Inductive Message : Type :=
| HumanMessage (content : value)
| AIMessage (content : string).

(** The agent framework, as one request meets it: how building the
    agent and running it settles (the output of a run that resolves
    being a string), given the number of runs made so far, the model,
    the input and the history passed; and whether [HumanMessage] accepts
    a content that is not a string (a string always is). *)
Record Framework : Type := {
  agent_invoke :
    nat -> ChatModel -> value -> list Message -> completion string;
  human_accepts : value -> completion unit
}.

(** A run of the agent, as the server started it. *)
Record Run : Type := {
  llm : ChatModel;
  input : value;
  chat_history : list Message
}.

(** The two module-level variables, and the runs of the agent made so
    far. *)
Record Process : Type := {
  selectedModel : string;
  chatHistory : list Message;
  runs : list Run
}.

Definition boot : Process :=
  {| selectedModel := "gemini"; chatHistory := []; runs := [] |}.

Record Response : Type := { status : Z; body : json }.

(** [res.json(b)] and [res.status(s).json(b)] *)
Definition res_json (b : json) : Response := {| status := 200; body := b |}.
Definition res_status_json (s : Z) (b : json) : Response :=
  {| status := s; body := b |}.

Definition getChatModel (env : Env) (p : Process) : ChatModel :=
  if String.eqb (selectedModel p) "openai" then
    ChatOpenAI "ollama/llama3" (OPENAI_API_KEY env) (OPENAI_API_BASE_URL env) 0
  else
    ChatGoogleGenerativeAI "models/gemini-2.5-flash" (GEMINI_API_KEY env) 0.

(** [const { name } = req.body]: a body that is [undefined] or [null]
    cannot be destructured. *)
Definition destructure (name : string) (req_body : value) : M Process value :=
  match req_body with
  | None =>
      throw (TypeError
               ("Cannot destructure property '" +:+ name
                  +:+ "' of 'req.body' as it is undefined."))
  | Some JNull =>
      throw (TypeError
               ("Cannot destructure property '" +:+ name
                  +:+ "' of 'req.body' as it is null."))
  | Some _ => mret (prop name req_body)
  end.

(** [app.get('/api/settings', ...)] *)
Definition get_settings : M Process Response :=
  fun p =>
    (Normal (res_json (JObject [("model", JString (selectedModel p))])), p).

(** [v === s] for a string literal [s] *)
Definition is_string (v : value) (s : string) : bool :=
  match v with
  | Some (JString s') => String.eqb s' s
  | _ => false
  end.

(** The string a value is, once [===] has shown that it is one. *)
Definition the_string (v : value) : string :=
  match v with
  | Some (JString s) => s
  | _ => ""
  end.

(** [selectedModel = model; chatHistory = [];] *)
Definition select_model (model : string) : M Process unit :=
  fun p =>
    (Normal tt,
     {| selectedModel := model; chatHistory := []; runs := runs p |}).

Definition get_selectedModel : M Process string :=
  fun p => (Normal (selectedModel p), p).

(** [app.post('/api/settings', ...)] *)
Definition post_settings (req_body : value) : M Process Response :=
  model ← destructure "model" req_body;
  if is_string model "gemini" || is_string model "openai" then
    _ ← select_model (the_string model);  (* reset history on switch *)
    selected ← get_selectedModel;
    mret (res_json
            (JObject [("success", JBool true);
                      ("message", JString ("LLM switched to " +:+ selected))]))
  else
    mret (res_status_json 400
            (JObject [("success", JBool false);
                      ("message", JString "Invalid model selection")])).

(** [agentExecutor.invoke({ input: message, chat_history: chatHistory })],
    with the agent built on [getChatModel()]. *)
Definition run_agent (fw : Framework) (env : Env) (message : value)
  : M Process string :=
  fun p =>
    let r := {| llm := getChatModel env p; input := message;
                chat_history := chatHistory p |} in
    (agent_invoke fw (length (runs p)) (llm r) message (chatHistory p),
     {| selectedModel := selectedModel p; chatHistory := chatHistory p;
        runs := runs p ++ [r] |}).

(** [new HumanMessage(message)] *)
Definition new_HumanMessage (fw : Framework) (message : value)
  : M Process Message :=
  match message with
  | Some (JString _) => mret (HumanMessage message)
  | _ => _ ← await (human_accepts fw message); mret (HumanMessage message)
  end.

(** [chatHistory.push(m)] *)
Definition push (m : Message) : M Process unit :=
  fun p =>
    (Normal tt,
     {| selectedModel := selectedModel p; chatHistory := chatHistory p ++ [m];
        runs := runs p |}).

Definition apology : json :=
  JObject [("error", JString "I encountered an issue processing your request. Please try again later.")].

(** [app.post('/chat', ...)] *)
Definition post_chat (fw : Framework) (env : Env) (req_body : value)
  : M Process Response :=
  try_catch
    (message ← destructure "message" req_body;
     output ← run_agent fw env message;
     (* Save history *)
     human ← new_HumanMessage fw message;
     _ ← push human;
     _ ← push (AIMessage output);
     mret (res_json (JObject [("reply", JString output)])))
    (fun error => mret (res_status_json 500 apology)).

Inductive Request : Type :=
| GetSettings
| PostSettings (req_body : value)
| PostChat (req_body : value).

Definition handle (fw : Framework) (env : Env) (req : Request)
  : M Process Response :=
  match req with
  | GetSettings => get_settings
  | PostSettings req_body => post_settings req_body
  | PostChat req_body => post_chat fw env req_body
  end.

(** Requests served one after the other; a handler that throws leaves
    the answer to the framework's error handler and the server goes on. *)
Fixpoint serve (fw : Framework) (env : Env) (reqs : list Request) (p : Process)
  : list (completion Response) * Process :=
  match reqs with
  | [] => ([], p)
  | req :: rest =>
      let '(r, p') := handle fw env req p in
      let '(rs, p'') := serve fw env rest p' in
      (r :: rs, p'')
  end.

(** The history is a sequence of exchanges: a human message, then the
    reply to it. *)
Fixpoint exchanges (history : list Message) : Prop :=
  match history with
  | [] => True
  | HumanMessage _ :: AIMessage _ :: rest => exchanges rest
  | _ => False
  end.

(** What every reachable state of the server satisfies. *)
Definition steady (p : Process) : Prop :=
  (selectedModel p = "gemini" \/ selectedModel p = "openai")
  /\ exchanges (chatHistory p).

End Server.

(** ** The chat page *)

Module Page.

(** ToString on a parsed JSON value; how a number prints is left to the
    engine. *)
Fixpoint ToString (number : Q -> string) (v : json) : string :=
  match v with
  | JNull => "null"
  | JBool true => "true"
  | JBool false => "false"
  | JNumber q => number q
  | JString s => s
  | JArray items =>
      join ","
        (List.map (fun item =>
                     match item with
                     | JNull => ""
                     | _ => ToString number item
                     end) items)
  | JObject _ => "[object Object]"
  end.

(** [`${v}`] *)
Definition template (number : Q -> string) (v : value) : string :=
  match v with
  | None => "undefined"
  | Some j => ToString number j
  end.

(** [element.innerHTML = v]: [null] gives the empty string. *)
Definition html_of (number : Q -> string) (v : value) : string :=
  match v with
  | Some JNull => ""
  | _ => template number v
  end.

Record Element : Type := { className : string; innerHTML : string }.

(** What [fetch] resolves to: [response.ok] and [response.json()]. *)
Record FetchResponse : Type := { ok : bool; json_body : completion json }.

(** The browser around the page: the network and number printing. *)
Record Browser : Type := {
  post : string -> json -> completion FetchResponse;
  number_toString : Q -> string
}.

(** The text field, the children of the chat container (first child
    first) and the requests sent so far. *)
Record Page : Type := {
  input_value : string;
  chat_container : list Element;
  sent : list (string * json)
}.

(** [appendMessage(sender, message)] *)
Definition appendMessage (br : Browser) (sender : string) (message : value)
  : M Page unit :=
  fun pg =>
    let messageElement :=
      {| className := if String.eqb sender "user" then "user-message"
                      else "bot-reply";
         innerHTML := html_of (number_toString br) message |} in
    (Normal tt,
     {| input_value := input_value pg;
        chat_container := messageElement :: chat_container pg;
        sent := sent pg |}).

Definition set_input (s : string) : M Page unit :=
  fun pg =>
    (Normal tt,
     {| input_value := s; chat_container := chat_container pg;
        sent := sent pg |}).

Definition get_input : M Page string :=
  fun pg => (Normal (input_value pg), pg).

(** [fetch('/chat', { method: 'POST', ..., body: JSON.stringify(b) })] *)
Definition fetch_post (br : Browser) (url : string) (b : json)
  : M Page FetchResponse :=
  fun pg =>
    (post br url b,
     {| input_value := input_value pg; chat_container := chat_container pg;
        sent := sent pg ++ [(url, b)] |}).

(** [data.name]: reading a property of [null] throws. *)
Definition member (name : string) (data : json) : M Page value :=
  match data with
  | JNull =>
      throw (TypeError
               ("Cannot read properties of null (reading '" +:+ name +:+ "')"))
  | _ => mret (prop name (Some data))
  end.

(** The listener of the form's [submit] event. *)
Definition on_submit (br : Browser) : M Page unit :=
  value ← get_input;
  let userMessage := trim value in
  if String.eqb userMessage "" then mret tt
  else
    (* Add the user's message to the chatbox *)
    _ ← appendMessage br "user" (Some (JString userMessage));
    _ ← set_input "";
    try_catch
      (response ← fetch_post br "/chat"
                    (JObject [("message", JString userMessage)]);
       data ← await (json_body response);
       if ok response then
         reply ← member "reply" data;
         appendMessage br "bot" reply
       else
         error ← member "error" data;
         appendMessage br "bot"
           (Some (JString ("Error: " +:+ template (number_toString br) error))))
      (fun error =>
         appendMessage br "bot"
           (Some (JString "Sorry, I am unable to connect to the server."))).

(** The browser of a page whose [/chat] requests reach the server in
    the state [p]: [ok] is a status from 200 to 299, and the body is the
    JSON the handler sent. *)
Definition wired (fw : Server.Framework) (env : Server.Env)
  (p : Server.Process) (number : Q -> string) : Browser :=
  {| post := fun url b =>
       match fst (Server.post_chat fw env (Some b) p) with
       | Normal resp =>
           Normal {| ok := ((200 <=? Server.status resp)
                            && (Server.status resp <? 300))%Z;
                     json_body := Normal (Server.body resp) |}
       | Throw e => Throw e
       end;
     number_toString := number |}.

End Page.

(** * The embedding at work *)

Example trim_ex : trim ("  " +:+ LF +:+ "SeLeCt 1 " +:+ LF) = "SeLeCt 1".
Proof. reflexivity. Qed.

Example toLowerCase_ex : toLowerCase "SeLeCt * FROM T" = "select * from t".
Proof. reflexivity. Qed.

Example join_ex : join ", " ["a"; "b"; "c"] = "a, b, c".
Proof. reflexivity. Qed.

Example ofZ_ex : ofZ 0 = "0" /\ ofZ 11 = "11" /\ ofZ (-3) = "-3".
Proof. repeat split; reflexivity. Qed.

Example match_rate_ex :
  match_digits "rate=" "audio/L16;codec=pcm;rate=24000" = Some "24000"
  /\ match_digits "audio/L" "audio/L16;codec=pcm;rate=24000" = Some "16"
  /\ match_digits "rate=" "audio/L16;rate=;rate=x;rate=8000z" = Some "8000"
  /\ match_digits "rate=" "audio/L16;rate=fast" = None.
Proof. repeat split; reflexivity. Qed.

Example parseInt_ex : parseInt "24000" = 24000 /\ parseInt (or_else None 16) = 16.
Proof. split; reflexivity. Qed.

Example setUint32_ex :
  setUint32 1 (inject_Z 0x52494646) false (ArrayBuffer 6)
    = (Normal tt, [x00; x52; x49; x46; x46; x00])
  /\ setUint32 1 (inject_Z 0x52494646) true (ArrayBuffer 6)
    = (Normal tt, [x00; x46; x46; x49; x52; x00])
  /\ setUint16 0 (3 # 2) true (ArrayBuffer 2) = (Normal tt, [x01; x00])
  /\ fst (setUint32 3 (inject_Z 1) true (ArrayBuffer 6))
    = Throw (RangeError "Offset is outside the bounds of the DataView").
Proof. repeat split; reflexivity. Qed.

(** * Properties of the Query Gateway *)

Module QueryGatewayFacts.

Import QueryGateway.

(** *** The tool, path by path *)

Ltac run_tool :=
  unfold invoke, run_mysql_query, try_finally, try_catch, mbind, M_bind,
    mret, M_ret, throw, createConnection, execute, connection_end,
    set_connection, get_connection, initial, logged.

Lemma invoke_refused db query :
  startsWith (toLowerCase (trim query)) "select" = false ->
  startsWith (toLowerCase (trim query)) "describe" = false ->
  startsWith (toLowerCase (trim query)) "insert" = false ->
  startsWith (toLowerCase (trim query)) "show" = false ->
  invoke db query = (Normal refusal, []).
Proof.
  intros Hs Hd Hi Hw. run_tool. rewrite Hs, Hd, Hi, Hw. reflexivity.
Qed.

(** Every path of a statement that passes the allow-list, in one
    equation. *)
Lemma invoke_allowed db query :
  (startsWith (toLowerCase (trim query)) "select"
   || startsWith (toLowerCase (trim query)) "describe"
   || startsWith (toLowerCase (trim query)) "insert"
   || startsWith (toLowerCase (trim query)) "show") = true ->
  invoke db query =
    match db_createConnection db with
    | Throw e => (Normal (describe_error e), [CreateConnection])
    | Normal _ =>
        let body :=
          caught (match db_execute db (trim query) with
                  | Normal result =>
                      rendered (startsWith (toLowerCase (trim query)) "insert")
                        result
                  | Throw e => Throw e
                  end) in
        (match db_end db with
         | Normal _ => Normal body
         | Throw e => Throw e
         end,
         [CreateConnection; Execute (trim query); ConnectionEnd])
    end.
Proof.
  intros Hok. run_tool.
  destruct (startsWith _ "select") eqn:Hs, (startsWith _ "describe") eqn:Hd,
    (startsWith _ "insert") eqn:Hi, (startsWith _ "show") eqn:Hw;
    try discriminate Hok; cbn;
    (destruct (db_createConnection db) as [c|e]; cbn; [|reflexivity]);
    (destruct (db_execute db (trim query)) as [[a i|rows]|e]; cbn;
     try destruct (0 <? a)%Z; cbn; destruct (db_end db); reflexivity).
Qed.

(** *** The allow-list *)

Lemma startsWith_cons c r p0 p :
  startsWith (String c r) (String p0 p) = true -> c = p0.
Proof.
  unfold startsWith. simpl. destruct (ascii_dec p0 c); congruence.
Qed.

(** A statement that reads is not an [insert]. *)
Lemma reads_not_insert query :
  reads query = true ->
  startsWith (toLowerCase (trim query)) "insert" = false.
Proof.
  unfold reads. destruct (toLowerCase (trim query)) as [|c r].
  - discriminate.
  - intros H. destruct (startsWith (String c r) "insert") eqn:Hi; [|reflexivity].
    apply startsWith_cons in Hi. subst c.
    repeat (apply orb_prop in H; destruct H as [H|H]);
      apply startsWith_cons in H; discriminate.
Qed.

Lemma reads_allowed query :
  reads query = true ->
  (startsWith (toLowerCase (trim query)) "select"
   || startsWith (toLowerCase (trim query)) "describe"
   || startsWith (toLowerCase (trim query)) "insert"
   || startsWith (toLowerCase (trim query)) "show") = true.
Proof.
  unfold reads.
  destruct (startsWith _ "select"), (startsWith _ "describe"),
    (startsWith _ "insert"), (startsWith _ "show"); simpl; congruence.
Qed.

Lemma takeToken_prefix s : String.prefix (takeToken s) s = true.
Proof.
  induction s as [|c r IH]; simpl; [reflexivity|].
  destruct (isWhiteSpace c); simpl; [reflexivity|].
  destruct (ascii_dec c c); congruence.
Qed.

(** A statement whose leading token is a keyword starts with it, so the
    prefix test lets through at least the statements the token test does. *)
Lemma keyword_token_allowed query :
  isKeyword (leadingToken query) = true ->
  (startsWith (toLowerCase (trim query)) "select"
   || startsWith (toLowerCase (trim query)) "describe"
   || startsWith (toLowerCase (trim query)) "insert"
   || startsWith (toLowerCase (trim query)) "show") = true.
Proof.
  unfold isKeyword, leadingToken, startsWith. intros H.
  pose proof (takeToken_prefix (toLowerCase (trim query))) as Hp.
  repeat (apply orb_prop in H; destruct H as [H|H]);
    apply String.eqb_eq in H; rewrite H in Hp; rewrite Hp;
    repeat rewrite orb_true_r; reflexivity.
Qed.

(** C1, as stated, fails: the token [selectx] is none of the four
    keywords, yet the statement is not refused and reaches the database. *)
Lemma C1_counterexample :
  ~ (isKeyword (leadingToken "selectx") = false ->
     invoke quiet "selectx" = (Normal refusal, [])).
Proof. intros H. specialize (H eq_refl). vm_compute in H. discriminate H. Qed.

Example selectx_reaches_the_database :
  invoke quiet "selectx"
  = (Normal no_results, [CreateConnection; Execute "selectx"; ConnectionEnd]).
Proof. reflexivity. Qed.

(** C1 (amended): a statement whose trimmed, lowercased text starts with
    none of [select], [describe], [insert], [show] is answered with the
    fixed refusal, and no call is made to the database. *)
Theorem C1_refused_without_database_call db query :
  startsWith (toLowerCase (trim query)) "select" = false ->
  startsWith (toLowerCase (trim query)) "describe" = false ->
  startsWith (toLowerCase (trim query)) "insert" = false ->
  startsWith (toLowerCase (trim query)) "show" = false ->
  invoke db query = (Normal refusal, []).
Proof. apply invoke_refused. Qed.

Lemma C1_witness :
  invoke quiet "  DROP TABLE cards; " = (Normal refusal, []).
Proof.
  apply (C1_refused_without_database_call quiet "  DROP TABLE cards; ");
    reflexivity.
Defined.

(** A statement that passes the allow-list reaches the database. *)
Lemma allowed_reaches_database db query :
  (startsWith (toLowerCase (trim query)) "select"
   || startsWith (toLowerCase (trim query)) "describe"
   || startsWith (toLowerCase (trim query)) "insert"
   || startsWith (toLowerCase (trim query)) "show") = true ->
  exists rest, snd (invoke db query) = CreateConnection :: rest.
Proof.
  intros Hok. rewrite (invoke_allowed db query Hok).
  destruct (db_createConnection db); eexists; reflexivity.
Qed.

(** *** The rendering of result sets *)







Example formatRow_ex :
  formatRow 0 [("id", SqlNumber 7); ("note", SqlNull); ("name", SqlString "f0")]
  = "Row 1: {id: 7, note: null, name: f0}".
Proof. reflexivity. Qed.




Example eleven_rows_ex :
  exists answer,
    fst (invoke (database (Normal TheConnection) (Normal (RowSet eleven))
                   (Normal tt)) "SELECT * FROM cards")
    = Normal answer
    /\ includes answer "... and 6 more records." = true
    /\ includes answer "Row 5: {id: 7, note: null}" = true
    /\ includes answer "Row 6:" = false.
Proof. eexists. split; [reflexivity|]. repeat split; reflexivity. Qed.

(** *** Inserts and failures *)

(** C5: an [insert] that affects no row and one that affects some are
    answered with different strings, both different from every string
    the [catch] block produces; the answer for no row is a success
    message that comes from the [try] block. *)
Theorem C5_insert_outcomes_distinct query c affectedRows insertId insertId0 :
  startsWith (toLowerCase (trim query)) "insert" = true ->
  (0 < affectedRows)%Z ->
  exists none some : string,
    fst (invoke (database (Normal c)
                   (Normal (ResultSetHeader 0 insertId0)) (Normal tt)) query)
    = Normal none
    /\ fst (invoke (database (Normal c)
                      (Normal (ResultSetHeader affectedRows insertId))
                      (Normal tt)) query)
       = Normal some
    /\ none <> some
    /\ startsWith none "Query executed successfully" = true
    /\ startsWith some "Query executed successfully" = true
    /\ forall error,
         fst (invoke (database (Normal c) (Throw error) (Normal tt)) query)
         = Normal (describe_error error)
         /\ fst (invoke (database (Throw error) (Throw error) (Normal tt)) query)
            = Normal (describe_error error)
         /\ describe_error error <> none
         /\ describe_error error <> some
         /\ startsWith (describe_error error) "Query executed successfully"
            = false.
Proof.
  intros Hi Hpos.
  assert (Hok : (startsWith (toLowerCase (trim query)) "select"
                  || startsWith (toLowerCase (trim query)) "describe"
                  || startsWith (toLowerCase (trim query)) "insert"
                  || startsWith (toLowerCase (trim query)) "show") = true).
  { rewrite Hi. repeat rewrite orb_true_r. reflexivity. }
  exists no_rows_affected.
  exists ("Query executed successfully. " +:+ ofZ affectedRows
            +:+ " row(s) affected. Insert ID: " +:+ ofZ insertId).
  apply Z.ltb_lt in Hpos.
  repeat rewrite (invoke_allowed _ query Hok). cbn. rewrite Hi. cbn.
  rewrite Hpos.
  do 5 (split; [reflexivity || discriminate|]).
  intros error. repeat rewrite (invoke_allowed _ query Hok). cbn.
  unfold describe_error.
  destruct (code_is error "ER_NO_SUCH_TABLE");
    [|destruct (code_is error "ER_BAD_FIELD_ERROR")];
    repeat split; reflexivity || discriminate.
Qed.

Lemma C5_witness :
  exists none some : string,
    fst (invoke (database (Normal TheConnection)
                   (Normal (ResultSetHeader 0 0)) (Normal tt))
           "INSERT INTO cards (card_id) SELECT 1 FROM games WHERE 1 = 0")
    = Normal none
    /\ fst (invoke (database (Normal TheConnection)
                      (Normal (ResultSetHeader 3 42)) (Normal tt))
              "INSERT INTO cards (card_id) SELECT 1 FROM games WHERE 1 = 0")
       = Normal some
    /\ none <> some.
Proof.
  destruct (C5_insert_outcomes_distinct
              "INSERT INTO cards (card_id) SELECT 1 FROM games WHERE 1 = 0"
              TheConnection 3 42 0 eq_refl eq_refl)
    as (none & some & H0 & H3 & Hne & _).
  exists none, some. repeat split; assumption.
Defined.

(** The part of C9 that holds for the gateway: while the release of
    the connection does not fail, every invocation returns a string. *)
Lemma run_mysql_query_returns db query :
  db_end db = Normal tt -> exists s, fst (invoke db query) = Normal s.
Proof.
  intros Hend.
  destruct (startsWith (toLowerCase (trim query)) "select"
            || startsWith (toLowerCase (trim query)) "describe"
            || startsWith (toLowerCase (trim query)) "insert"
            || startsWith (toLowerCase (trim query)) "show") eqn:Hok.
  - rewrite (invoke_allowed db query Hok).
    destruct (db_createConnection db); cbn; rewrite ?Hend; eauto.
  - apply orb_false_elim in Hok as [Hok Hw].
    apply orb_false_elim in Hok as [Hok Hi].
    apply orb_false_elim in Hok as [Hs Hd].
    rewrite (invoke_refused db query Hs Hd Hi Hw). eauto.
Qed.

(** An error raised by [connection.end()] in the [finally] block is not
    caught: it replaces whatever the [try] and [catch] blocks returned. *)
Lemma release_error_escapes db query c e :
  (startsWith (toLowerCase (trim query)) "select"
   || startsWith (toLowerCase (trim query)) "describe"
   || startsWith (toLowerCase (trim query)) "insert"
   || startsWith (toLowerCase (trim query)) "show") = true ->
  db_createConnection db = Normal c ->
  db_end db = Throw e ->
  fst (invoke db query) = Throw e.
Proof.
  intros Hok Hc He. rewrite (invoke_allowed db query Hok), Hc, He.
  reflexivity.
Qed.

(** C9 fails on the gateway: when the release of the connection raises,
    the invocation rejects with that error instead of returning a
    string, although the statement itself had succeeded. *)
Theorem C9_release_error_rejects :
  invoke (database (Normal TheConnection)
            (Normal (RowSet [[("id", SqlNumber 1)]])) (Throw connection_lost))
    "SELECT id FROM games"
  = (Throw connection_lost,
     [CreateConnection; Execute "SELECT id FROM games"; ConnectionEnd]).
Proof. reflexivity. Qed.

End QueryGatewayFacts.

(** * Properties of the Speech Container Encoder *)

Module SpeechEncoderFacts.

Import SpeechEncoder.

(** *** The header, byte by byte *)

Lemma writeHeader_layout s b n :
  writeHeader s b n (ArrayBuffer 44) = (Normal tt, headerOf s b n).
Proof. reflexivity. Qed.

Lemma length_headerOf s b n : length (headerOf s b n) = 44%nat.
Proof. reflexivity. Qed.

Lemma Z_of_byte_of_Z z : Z_of_byte (byte_of_Z z) = z mod 256.
Proof.
  unfold Z_of_byte, byte_of_Z.
  change 255 with (Z.ones 8). rewrite Z.land_ones by lia.
  change (2 ^ 8) with 256.
  pose proof (Z.mod_pos_bound z 256 ltac:(lia)) as Hb.
  destruct (Byte.of_N (Z.to_N (z mod 256))) as [b|] eqn:E.
  - apply Byte.to_of_N in E. rewrite E. lia.
  - apply Byte.of_N_None_iff in E. lia.
Qed.

Lemma fromBytesLE_rawBytes size n :
  0 <= n < 256 ^ Z.of_nat size -> fromBytesLE (rawBytes size n) = n.
Proof.
  revert n. induction size as [|size IH]; intros n Hn.
  - simpl in *. lia.
  - cbn [rawBytes fromBytesLE]. rewrite Z_of_byte_of_Z.
    rewrite Z.shiftr_div_pow2 by lia. change (2 ^ 8) with 256.
    rewrite IH.
    + pose proof (Z.div_mod n 256 ltac:(lia)). lia.
    + rewrite Nat2Z.inj_succ, Z.pow_succ_r in Hn by lia.
      split; [apply Z.div_pos; lia|].
      apply Z.div_lt_upper_bound; lia.
Qed.

Lemma ToUint32_range x : 0 <= ToUint32 x < 256 ^ Z.of_nat 4.
Proof. unfold ToUint32. apply Z.mod_pos_bound. reflexivity. Qed.

Lemma ToUint16_range x : 0 <= ToUint16 x < 256 ^ Z.of_nat 2.
Proof. unfold ToUint16. apply Z.mod_pos_bound. reflexivity. Qed.

Lemma truncate_inject_Z z : truncate (inject_Z z) = z.
Proof. unfold truncate. simpl. apply Z.quot_1_r. Qed.

Lemma ToUint32_inject_Z z : 0 <= z < 2 ^ 32 -> ToUint32 (inject_Z z) = z.
Proof.
  intros H. unfold ToUint32. rewrite truncate_inject_Z.
  apply Z.mod_small. exact H.
Qed.

Lemma ToUint16_inject_Z z : 0 <= z < 2 ^ 16 -> ToUint16 (inject_Z z) = z.
Proof.
  intros H. unfold ToUint16. rewrite truncate_inject_Z.
  apply Z.mod_small. exact H.
Qed.

Lemma truncate_blockAlign b : truncate (blockAlign b) = Z.quot b 8.
Proof.
  unfold truncate, blockAlign, bytesPerSample, numChannels. cbn.
  f_equal. lia.
Qed.

Lemma truncate_byteRate s b : truncate (byteRate s b) = Z.quot (s * b) 8.
Proof.
  unfold truncate, byteRate, blockAlign, bytesPerSample, numChannels. cbn.
  f_equal. lia.
Qed.

(** *** The tool when the speech API delivers *)

Ltac run_tool :=
  unfold synthesize, generate_and_save_audio, string_match, try_catch, mbind,
    M_bind, mret, M_ret, throw, await, mkdir, fetch, writeFile, with_local.

Lemma synthesize_delivered rt text voice_name mime pcm :
  delivers rt text voice_name mime pcm ->
  synthesize rt text voice_name
  = (match fs_writeFile rt (filePath rt) (wavBuffer mime pcm) with
     | Normal _ => Normal ("Audio successfully saved to: " +:+ filePath rt)
     | Throw e =>
         Normal ("An error occurred during audio generation: " +:+ message e)
     end,
     [Mkdir outputDir;
      Fetch (apiUrl rt) (request text (default "Charon" voice_name));
      WriteFile (filePath rt) (wavBuffer mime pcm)]).
Proof.
  intros (response & result & Hmk & Hfetch & Hjson & Hdata & Hmime & Hne & Hbuf).
  run_tool. rewrite Hmk, Hfetch, Hjson, Hdata, Hmime, Hbuf.
  assert (Ht : truthy (Some (JString mime)) = true).
  { destruct mime; [congruence|reflexivity]. }
  rewrite Ht. cbn [negb orb].
  rewrite writeHeader_layout. cbn [app].
  unfold wavBuffer, sampleRateOf, bitsPerSampleOf.
  destruct (fs_writeFile rt _ _); reflexivity.
Qed.

Lemma wavBuffer_length mime pcm :
  length (wavBuffer mime pcm) = (length pcm + 44)%nat.
Proof.
  unfold wavBuffer. rewrite length_app, length_headerOf. lia.
Qed.

Lemma wavBuffer_payload mime pcm : drop 44 (wavBuffer mime pcm) = pcm.
Proof. reflexivity. Qed.

Lemma wavBuffer_tags mime pcm :
  slice 0 4 (wavBuffer mime pcm) = tag "RIFF"
  /\ slice 8 12 (wavBuffer mime pcm) = tag "WAVE"
  /\ slice 12 16 (wavBuffer mime pcm) = tag "fmt "
  /\ slice 36 40 (wavBuffer mime pcm) = tag "data".
Proof. repeat split; reflexivity. Qed.

Lemma wavBuffer_fields mime pcm :
  let s := sampleRateOf mime in
  let b := bitsPerSampleOf mime in
  let file := wavBuffer mime pcm in
  getUint32LE 4 file = Some (ToUint32 (inject_Z (36 + Z.of_nat (length pcm))))
  /\ getUint32LE 16 file = Some 16
  /\ getUint16LE 20 file = Some 1
  /\ getUint16LE 22 file = Some 1
  /\ getUint32LE 24 file = Some (ToUint32 (inject_Z s))
  /\ getUint32LE 28 file = Some (ToUint32 (byteRate s b))
  /\ getUint16LE 32 file = Some (ToUint16 (blockAlign b))
  /\ getUint16LE 34 file = Some (ToUint16 (inject_Z b))
  /\ getUint32LE 40 file = Some (ToUint32 (inject_Z (Z.of_nat (length pcm)))).
Proof.
  intros s b file.
  repeat split;
    try (change (Some 16) with (Some (ToUint32 (inject_Z 16))));
    try (change (Some 1) with (Some (ToUint16 (inject_Z 1))));
    match goal with
    | |- getUint32LE _ _ = Some ?v =>
        rewrite <- (fromBytesLE_rawBytes 4 v (ToUint32_range _)); reflexivity
    | |- getUint16LE _ _ = Some ?v =>
        rewrite <- (fromBytesLE_rawBytes 2 v (ToUint16_range _)); reflexivity
    end.
Qed.

(** *** Where a pattern occurs *)

Lemma append_cons c p rest : String c p +:+ rest = String c (p +:+ rest).
Proof. reflexivity. Qed.

Lemma prefix_split p s :
  String.prefix p s = true -> s = p +:+ skip (String.length p) s.
Proof.
  revert s. induction p as [|c p IH]; intros s H; [reflexivity|].
  destruct s as [|c' s]; [discriminate|]. simpl in *.
  destruct (ascii_dec c c'); [|discriminate]. subst c'.
  rewrite append_cons. f_equal. apply IH, H.
Qed.

Lemma prefix_append p rest : String.prefix p (p +:+ rest) = true.
Proof.
  induction p as [|c p IH]; [destruct rest; reflexivity|].
  rewrite append_cons. cbn [String.prefix].
  destruct (ascii_dec c c); congruence.
Qed.

Lemma skip_append p rest : skip (String.length p) (p +:+ rest) = rest.
Proof.
  induction p as [|c p IH]; [destruct rest; reflexivity|].
  rewrite append_cons. exact IH.
Qed.

Lemma match_here_occurs lit s d : match_here lit s = Some d -> occurs lit s.
Proof.
  unfold match_here, startsWith.
  destruct (String.prefix lit s) eqn:Hp; [|discriminate].
  apply prefix_split in Hp.
  destruct (skip (String.length lit) s) as [|c r] eqn:Hs; [discriminate|].
  simpl. destruct (isDigit c) eqn:Hc; [|discriminate]. intros _.
  exists "", c, r. split; [exact Hp|exact Hc].
Qed.

Lemma match_digits_occurs lit s d : match_digits lit s = Some d -> occurs lit s.
Proof.
  induction s as [|c s IH]; simpl.
  - destruct (match_here lit "") eqn:H; [|discriminate].
    intros _. eapply match_here_occurs, H.
  - destruct (match_here lit (String c s)) eqn:H.
    + intros _. eapply match_here_occurs, H.
    + intros Hm. destruct (IH Hm) as (before & digit & after & -> & Hd).
      exists (String c before), digit, after. split; [reflexivity|exact Hd].
Qed.

Lemma occurs_match_digits lit s :
  occurs lit s -> exists d, match_digits lit s = Some d /\ d <> "".
Proof.
  intros (before & digit & after & -> & Hd).
  induction before as [|c before IH].
  - assert (H : match_here lit (lit +:+ String digit after)
                = Some (String digit (digits after))).
    { unfold match_here, startsWith.
      rewrite prefix_append, skip_append. simpl. rewrite Hd. reflexivity. }
    exists (String digit (digits after)). split; [|discriminate].
    change ("" +:+ lit +:+ String digit after) with (lit +:+ String digit after).
    destruct (lit +:+ String digit after); simpl; rewrite H; reflexivity.
  - destruct IH as (d & Hm & Hne).
    change (String c before +:+ lit +:+ String digit after)
      with (String c (before +:+ lit +:+ String digit after)).
    cbn [match_digits].
    destruct (match_here lit _) as [d'|] eqn:H.
    + exists d'. split; [reflexivity|].
      unfold match_here in H. destruct (startsWith _ _); [|discriminate].
      destruct (digits _); [discriminate|]. injection H as <-. discriminate.
    + exists d. split; [exact Hm|exact Hne].
Qed.

(** The fallback is taken exactly when the pattern is absent. *)
Lemma match_digits_None lit s : match_digits lit s = None <-> ~ occurs lit s.
Proof.
  split.
  - intros Hn Ho. apply occurs_match_digits in Ho as (d & Hd & _). congruence.
  - intros Hno. destruct (match_digits lit s) eqn:H; [|reflexivity].
    exfalso. eapply Hno, match_digits_occurs, H.
Qed.

Lemma parseDigits_nonneg s acc : 0 <= acc -> 0 <= parseDigits acc s.
Proof.
  revert acc. induction s as [|c s IH]; intros acc Hacc; simpl; [exact Hacc|].
  destruct (isDigit c) eqn:Hc; [|exact Hacc].
  apply IH. unfold isDigit in Hc. unfold digitValue.
  apply andb_prop in Hc as [H1 H2]. apply Nat.leb_le in H1. lia.
Qed.

Lemma sampleRateOf_nonneg mime : 0 <= sampleRateOf mime.
Proof. apply parseDigits_nonneg. lia. Qed.

Lemma bitsPerSampleOf_nonneg mime : 0 <= bitsPerSampleOf mime.
Proof. apply parseDigits_nonneg. lia. Qed.

(** *** The container *)

Ltac delivered := do 2 eexists; repeat split; try reflexivity; discriminate.

(** C2: with 24000 Hz and 16 bits derived, the file written for a
    payload of N bytes (N + 36 within the 32-bit size field) has N + 44
    bytes, the tags RIFF, WAVE and data at offsets 0, 8 and 36, the
    little-endian sizes N + 36 at offset 4 and N at offset 40, and the
    payload unchanged after the 44-byte header. *)
Theorem C2_wav_container rt text voice_name mime pcm :
  delivers rt text voice_name mime pcm ->
  sampleRateOf mime = 24000 ->
  bitsPerSampleOf mime = 16 ->
  Z.of_nat (length pcm) + 36 < 2 ^ 32 ->
  exists file,
    snd (synthesize rt text voice_name)
    = [Mkdir outputDir;
       Fetch (apiUrl rt) (request text (default "Charon" voice_name));
       WriteFile (filePath rt) file]
    /\ length file = (length pcm + 44)%nat
    /\ slice 0 4 file = tag "RIFF"
    /\ slice 8 12 file = tag "WAVE"
    /\ slice 36 40 file = tag "data"
    /\ getUint32LE 4 file = Some (Z.of_nat (length pcm) + 36)
    /\ getUint32LE 40 file = Some (Z.of_nat (length pcm))
    /\ getUint32LE 24 file = Some 24000
    /\ getUint16LE 34 file = Some 16
    /\ drop 44 file = pcm.
Proof.
  intros Hd Hs Hb Hn. exists (wavBuffer mime pcm).
  rewrite (synthesize_delivered _ _ _ _ _ Hd). cbn [snd].
  destruct (wavBuffer_tags mime pcm) as (Hriff & Hwave & _ & Hdata).
  destruct (wavBuffer_fields mime pcm)
    as (H4 & _ & _ & _ & H24 & _ & _ & H34 & H40).
  rewrite Hs in H24. rewrite Hb in H34.
  rewrite ToUint32_inject_Z in H4, H40 by lia.
  rewrite Z.add_comm in H4.
  repeat split; try assumption.
  - apply wavBuffer_length.
Qed.

Lemma C2_witness :
  exists file,
    written (snd (synthesize (studio "audio/L16;codec=pcm;rate=24000"
                            [x01; x02; x03; x04]) "Welcome to the arena" None))
    = Some file
    /\ length file = 48%nat
    /\ getUint32LE 4 file = Some 40
    /\ getUint32LE 40 file = Some 4.
Proof.
  destruct (C2_wav_container
              (studio "audio/L16;codec=pcm;rate=24000" [x01; x02; x03; x04])
              "Welcome to the arena" None
              "audio/L16;codec=pcm;rate=24000" [x01; x02; x03; x04])
    as (file & Hlog & Hlen & _ & _ & _ & H4 & H40 & _).
  - delivered.
  - reflexivity.
  - reflexivity.
  - reflexivity.
  - exists file. rewrite Hlog. repeat split; assumption.
Defined.

(** *** The numeric fields *)

Lemma whole_bytesPerSample b :
  b mod 8 = 0 -> (inject_Z (b / 8) == bytesPerSample b)%Q.
Proof.
  intros Hm. unfold bytesPerSample, Qeq. cbn.
  pose proof (Z.div_mod b 8 ltac:(lia)). lia.
Qed.

Lemma fractional_bytesPerSample b k :
  b mod 8 <> 0 -> ~ (inject_Z k == bytesPerSample b)%Q.
Proof.
  intros Hm. unfold bytesPerSample, Qeq. cbn. intros H.
  apply Hm. replace b with (k * 8) by lia. apply Z.mod_mul. lia.
Qed.

Lemma blockAlign_bytesPerSample b :
  (blockAlign b == inject_Z numChannels * bytesPerSample b)%Q.
Proof. reflexivity. Qed.

Lemma byteRate_bytesPerSample s b :
  (byteRate s b
   == inject_Z s * inject_Z numChannels * bytesPerSample b)%Q.
Proof. unfold byteRate, blockAlign. ring. Qed.

(** C3, as stated, fails: for the descriptor [audio/L12] the block-align
    field holds 1, while channels x bytesPerSample is 3/2. *)
Lemma C3_counterexample :
  ~ (exists file v,
       written (snd (synthesize (studio mimeL12 [x01; x02; x03]) "hello" None))
       = Some file
       /\ getUint16LE 32 file = Some v
       /\ (inject_Z v
           == inject_Z numChannels * bytesPerSample (bitsPerSampleOf mimeL12))%Q).
Proof.
  intros (file & v & Hfile & Hv & Heq).
  vm_compute in Hfile. injection Hfile as <-.
  vm_compute in Hv. injection Hv as <-.
  vm_compute in Heq. discriminate Heq.
Qed.

(** C3 (amended): when the derived bit depth is a multiple of 8 and the
    values fit their fields, the header holds, little-endian, 16 at
    offset 16, 1 at 20, 1 at 22, the sample rate at 24, the byte rate
    sampleRate x channels x bytesPerSample at 28, the block align
    channels x bytesPerSample at 32 and the bit depth at 34, with
    bytesPerSample = bitsPerSample / 8; the four tags are written as
    their ASCII bytes in order. *)
Theorem C3_header_fields rt text voice_name mime pcm :
  delivers rt text voice_name mime pcm ->
  bitsPerSampleOf mime mod 8 = 0 ->
  sampleRateOf mime < 2 ^ 32 ->
  bitsPerSampleOf mime < 2 ^ 16 ->
  sampleRateOf mime * (bitsPerSampleOf mime / 8) < 2 ^ 32 ->
  exists file rate align,
    written (snd (synthesize rt text voice_name)) = Some file
    /\ slice 0 4 file = tag "RIFF"
    /\ slice 8 12 file = tag "WAVE"
    /\ slice 12 16 file = tag "fmt "
    /\ slice 36 40 file = tag "data"
    /\ getUint32LE 16 file = Some 16
    /\ getUint16LE 20 file = Some 1
    /\ getUint16LE 22 file = Some numChannels
    /\ getUint32LE 24 file = Some (sampleRateOf mime)
    /\ getUint32LE 28 file = Some rate
    /\ (inject_Z rate
        == inject_Z (sampleRateOf mime) * inject_Z numChannels
           * bytesPerSample (bitsPerSampleOf mime))%Q
    /\ getUint16LE 32 file = Some align
    /\ (inject_Z align
        == inject_Z numChannels * bytesPerSample (bitsPerSampleOf mime))%Q
    /\ getUint16LE 34 file = Some (bitsPerSampleOf mime).
Proof.
  intros Hd Hm Hs Hb Hr.
  pose proof (sampleRateOf_nonneg mime) as Hs0.
  pose proof (bitsPerSampleOf_nonneg mime) as Hb0.
  set (s := sampleRateOf mime) in *. set (b := bitsPerSampleOf mime) in *.
  exists (wavBuffer mime pcm), (s * (b / 8)), (b / 8).
  rewrite (synthesize_delivered _ _ _ _ _ Hd). cbn [snd written outputDir].
  destruct (wavBuffer_tags mime pcm) as (Hriff & Hwave & Hfmt & Hdata).
  destruct (wavBuffer_fields mime pcm)
    as (_ & H16 & H20 & H22 & H24 & H28 & H32 & H34 & _).
  fold s b in H24, H28, H32, H34.
  assert (Hq : b / 8 * 8 = b).
  { pose proof (Z.div_mod b 8 ltac:(lia)). lia. }
  assert (Hq0 : 0 <= b / 8) by (apply Z.div_pos; lia).
  rewrite ToUint32_inject_Z in H24 by lia.
  rewrite ToUint16_inject_Z in H34 by lia.
  assert (E28 : ToUint32 (byteRate s b) = s * (b / 8)).
  { unfold ToUint32. rewrite truncate_byteRate.
    rewrite <- Hq at 1. rewrite Z.mul_assoc, Z.quot_mul by lia.
    apply Z.mod_small. split; [apply Z.mul_nonneg_nonneg; lia|lia]. }
  assert (E32 : ToUint16 (blockAlign b) = b / 8).
  { unfold ToUint16. rewrite truncate_blockAlign.
    rewrite <- Hq at 1. rewrite Z.quot_mul by lia.
    apply Z.mod_small. lia. }
  rewrite E28 in H28. rewrite E32 in H32.
  repeat split; try assumption; try reflexivity.
  - rewrite inject_Z_mult, (whole_bytesPerSample b Hm).
    unfold numChannels. ring.
  - rewrite (whole_bytesPerSample b Hm). unfold numChannels. ring.
Qed.

Lemma C3_witness :
  exists file rate align,
    written (snd (synthesize (studio "audio/L24;codec=pcm;rate=44100" [x01; x02; x03])
                    "hello" (Some "Kore")))
    = Some file
    /\ getUint32LE 24 file = Some 44100
    /\ getUint32LE 28 file = Some rate
    /\ (inject_Z rate == 44100 * 1 * (24 / 8))%Q
    /\ getUint16LE 32 file = Some align
    /\ (inject_Z align == 1 * (24 / 8))%Q
    /\ getUint16LE 34 file = Some 24.
Proof.
  destruct (C3_header_fields
              (studio "audio/L24;codec=pcm;rate=44100" [x01; x02; x03])
              "hello" (Some "Kore") "audio/L24;codec=pcm;rate=44100"
              [x01; x02; x03])
    as (file & rate & align & Hfile & _ & _ & _ & _ & _ & _ & _ & H24
          & H28 & E28 & H32 & E32 & H34).
  - delivered.
  - reflexivity.
  - reflexivity.
  - reflexivity.
  - reflexivity.
  - exists file, rate, align. repeat split; assumption.
Defined.

(** *** Fallbacks, empty answers and the returned string *)

(** C6, as stated, fails for the empty descriptor: it has neither
    pattern, yet with it the encoder derives nothing and writes no
    header, the guard before the derivation taking it for a missing
    descriptor. *)
Lemma C6_counterexample :
  ~ (~ occurs "rate=" "" -> ~ occurs "audio/L" "" ->
     exists file,
       written (snd (synthesize (studio "" [x01; x02]) "hello" None))
       = Some file
       /\ getUint32LE 24 file = Some 24000
       /\ getUint16LE 34 file = Some 16).
Proof.
  intros H. destruct H as (file & Hfile & _).
  - apply match_digits_None. reflexivity.
  - apply match_digits_None. reflexivity.
  - vm_compute in Hfile. discriminate Hfile.
Qed.

Example empty_descriptor_ex :
  synthesize (studio "" [x01; x02]) "hello" None
  = (Normal "No audio data was returned.",
     [Mkdir outputDir;
      Fetch (apiUrl (studio "" [x01; x02])) (request "hello" "Charon")]).
Proof. reflexivity. Qed.

(** C6 (amended): a descriptor that is not empty and has no rate
    pattern gives 24000 Hz, one that is not empty and has no bit-depth
    pattern gives 16 bits, and the encoder goes on: with an answering
    API and a file system that accepts the write it returns its success
    message, the fallback values being the ones in the header it wrote. *)
Theorem C6_fallback_format rt text voice_name mime pcm :
  mime <> "" ->
  delivers rt text voice_name mime pcm ->
  (forall data, fs_writeFile rt (filePath rt) data = Normal tt) ->
  (~ occurs "rate=" mime -> sampleRateOf mime = 24000)
  /\ (~ occurs "audio/L" mime -> bitsPerSampleOf mime = 16)
  /\ exists file,
       synthesize rt text voice_name
       = (Normal ("Audio successfully saved to: " +:+ filePath rt),
          [Mkdir outputDir;
           Fetch (apiUrl rt) (request text (default "Charon" voice_name));
           WriteFile (filePath rt) file])
       /\ (~ occurs "rate=" mime -> getUint32LE 24 file = Some 24000)
       /\ (~ occurs "audio/L" mime -> getUint16LE 34 file = Some 16).
Proof.
  intros _ Hd Hw.
  assert (Hrate : ~ occurs "rate=" mime -> sampleRateOf mime = 24000).
  { intros Hno. apply match_digits_None in Hno.
    unfold sampleRateOf. rewrite Hno. reflexivity. }
  assert (Hbits : ~ occurs "audio/L" mime -> bitsPerSampleOf mime = 16).
  { intros Hno. apply match_digits_None in Hno.
    unfold bitsPerSampleOf. rewrite Hno. reflexivity. }
  split; [exact Hrate|]. split; [exact Hbits|].
  exists (wavBuffer mime pcm).
  rewrite (synthesize_delivered _ _ _ _ _ Hd), Hw.
  destruct (wavBuffer_fields mime pcm)
    as (_ & _ & _ & _ & H24 & _ & _ & H34 & _).
  split; [reflexivity|]. split; intros Hno.
  - rewrite (Hrate Hno) in H24. exact H24.
  - rewrite (Hbits Hno) in H34. exact H34.
Qed.

Lemma no_digit_no_occurrence lit mime :
  match_digits lit mime = None -> ~ occurs lit mime.
Proof. apply match_digits_None. Qed.

Lemma C6_witness :
  sampleRateOf "audio/pcm" = 24000
  /\ bitsPerSampleOf "audio/pcm" = 16
  /\ exists file,
       synthesize (studio "audio/pcm" [x01; x02]) "hello" None
       = (Normal ("Audio successfully saved to: "
                    +:+ filePath (studio "audio/pcm" [x01; x02])),
          [Mkdir outputDir;
           Fetch (apiUrl (studio "audio/pcm" [x01; x02]))
             (request "hello" "Charon");
           WriteFile (filePath (studio "audio/pcm" [x01; x02])) file])
       /\ getUint32LE 24 file = Some 24000
       /\ getUint16LE 34 file = Some 16.
Proof.
  destruct (C6_fallback_format (studio "audio/pcm" [x01; x02]) "hello" None
              "audio/pcm" [x01; x02])
    as (Hrate & Hbits & file & Hrun & H24 & H34).
  - discriminate.
  - delivered.
  - reflexivity.
  - assert (Hr : ~ occurs "rate=" "audio/pcm")
      by (apply no_digit_no_occurrence; reflexivity).
    assert (Hb : ~ occurs "audio/L" "audio/pcm")
      by (apply no_digit_no_occurrence; reflexivity).
    split; [exact (Hrate Hr)|]. split; [exact (Hbits Hb)|].
    exists file. split; [exact Hrun|]. split; [exact (H24 Hr)|exact (H34 Hb)].
Defined.

Lemma no_part_no_data result : part result = None -> audioData result = None.
Proof. unfold audioData. intros ->. reflexivity. Qed.

(** C7: when the answer of the speech API has no audio part, or its
    part has no audio data or no format descriptor, the encoder returns the fixed message as a
    normal result and writes no file: the directory was created, the
    request was sent, and nothing else happened. *)
Theorem C7_no_audio rt text voice_name response result :
  fs_mkdir rt outputDir = Normal tt ->
  net_fetch rt (apiUrl rt) (request text (default "Charon" voice_name))
  = Normal response ->
  response_json response = Normal result ->
  part result = None \/ truthy (audioData result) = false
  \/ truthy (mimeType result) = false ->
  synthesize rt text voice_name
  = (Normal "No audio data was returned.",
     [Mkdir outputDir;
      Fetch (apiUrl rt) (request text (default "Charon" voice_name))])
  /\ written (snd (synthesize rt text voice_name)) = None.
Proof.
  intros Hmk Hfetch Hjson Hno.
  assert (Hguard : negb (truthy (audioData result))
                   || negb (truthy (mimeType result)) = true).
  { destruct Hno as [Hp|[Ht|Ht]].
    - rewrite (no_part_no_data result Hp). reflexivity.
    - rewrite Ht. reflexivity.
    - rewrite Ht. apply orb_true_r. }
  assert (Hrun : synthesize rt text voice_name
                 = (Normal "No audio data was returned.",
                    [Mkdir outputDir;
                     Fetch (apiUrl rt)
                       (request text (default "Charon" voice_name))])).
  { run_tool. rewrite Hmk, Hfetch, Hjson, Hguard. reflexivity. }
  split; [exact Hrun|]. rewrite Hrun. reflexivity.
Qed.

Lemma C7_witness :
  synthesize (answering (JObject [("candidates", JArray [])])) "hello" None
  = (Normal "No audio data was returned.",
     [Mkdir outputDir;
      Fetch (apiUrl (answering (JObject [("candidates", JArray [])])))
        (request "hello" "Charon")])
  /\ written (snd (synthesize (answering (JObject [("candidates", JArray [])]))
                     "hello" None))
     = None.
Proof.
  apply (C7_no_audio (answering (JObject [("candidates", JArray [])]))
           "hello" None
           {| response_json := Normal (JObject [("candidates", JArray [])]) |}
           (JObject [("candidates", JArray [])]));
    try reflexivity.
  left. reflexivity.
Defined.

(** C8, as stated, fails: the string returned after a successful
    synthesis is not the path of the file that was written. *)
Lemma C8_counterexample :
  ~ (exists path data,
       snd (synthesize (studio "audio/L16;codec=pcm;rate=24000" [x01; x02])
              "hello" None)
       = [Mkdir outputDir;
          Fetch (apiUrl (studio "audio/L16;codec=pcm;rate=24000" [x01; x02]))
            (request "hello" "Charon");
          WriteFile path data]
       /\ fst (synthesize (studio "audio/L16;codec=pcm;rate=24000" [x01; x02])
                 "hello" None)
          = Normal path).
Proof.
  intros (path & data & Hlog & Hret).
  vm_compute in Hlog. injection Hlog as <- _.
  vm_compute in Hret. discriminate Hret.
Qed.

(** C8 (amended): after a successful synthesis the returned string is
    the sentence "Audio successfully saved to: " followed by the path of
    the written file, and that path is the output directory joined with
    [audio_output_<identifier>.wav] for the identifier just generated. *)
Theorem C8_returned_message rt text voice_name mime pcm :
  delivers rt text voice_name mime pcm ->
  (forall data, fs_writeFile rt (filePath rt) data = Normal tt) ->
  exists path data,
    snd (synthesize rt text voice_name)
    = [Mkdir outputDir;
       Fetch (apiUrl rt) (request text (default "Charon" voice_name));
       WriteFile path data]
    /\ fst (synthesize rt text voice_name)
       = Normal ("Audio successfully saved to: " +:+ path)
    /\ path = "sounds/audio_output_" +:+ uuidv4 rt +:+ ".wav".
Proof.
  intros Hd Hw. exists (filePath rt), (wavBuffer mime pcm).
  rewrite (synthesize_delivered _ _ _ _ _ Hd), Hw.
  repeat split; reflexivity.
Qed.

Lemma C8_witness :
  fst (synthesize (studio "audio/L16;codec=pcm;rate=24000" [x01; x02]) "hello" None)
  = Normal "Audio successfully saved to: sounds/audio_output_1b9d6bcd-bbfd-4b2d-9b5d-ab8dfbbd4bed.wav".
Proof.
  destruct (C8_returned_message
              (studio "audio/L16;codec=pcm;rate=24000" [x01; x02]) "hello" None
              "audio/L16;codec=pcm;rate=24000" [x01; x02])
    as (path & data & _ & Hret & ->).
  - delivered.
  - reflexivity.
  - exact Hret.
Defined.

(** *** Bit depths that are not whole bytes *)

Lemma byteRate_whole s b :
  (exists k, (inject_Z k == byteRate s b)%Q) <-> (s * b) mod 8 = 0.
Proof.
  unfold byteRate, blockAlign, bytesPerSample, numChannels, Qeq. cbn. split.
  - intros [k Hk]. replace (s * b) with (k * 8) by lia.
    apply Z.mod_mul. lia.
  - intros Hm. exists (s * b / 8).
    pose proof (Z.div_mod (s * b) 8 ltac:(lia)). lia.
Qed.

(** C10, as stated, fails on the byte rate: for [audio/L12] at 24000 Hz
    the bit depth is no multiple of 8, yet the byte rate the field is
    written from is the integer 36000. *)
Lemma C10_counterexample :
  ~ (bitsPerSampleOf mimeL12 mod 8 <> 0 ->
     forall k,
       ~ (inject_Z k
          == byteRate (sampleRateOf mimeL12) (bitsPerSampleOf mimeL12))%Q).
Proof.
  intros H. apply (H ltac:(vm_compute; discriminate) 36000).
  vm_compute. reflexivity.
Qed.

(** C10 (amended): the encoder does not check that the bit depth is a
    multiple of 8. For a descriptor whose bit depth is not (the numbers
    being ones that doubles hold exactly), it still writes the file;
    bytesPerSample and the block align are not integers; the byte rate
    is the sample rate times that block align, and is an integer exactly
    when sampleRate x bitsPerSample is a multiple of 8; both fields hold
    the truncated values, so that the block-align field differs from
    channels x bytesPerSample: the equalities of the header table hold
    together only when bitsPerSample mod 8 = 0. *)
Theorem C10_unchecked_bit_depth rt text voice_name mime pcm :
  delivers rt text voice_name mime pcm ->
  representable (sampleRateOf mime) (bitsPerSampleOf mime) ->
  bitsPerSampleOf mime mod 8 <> 0 ->
  exists file,
    written (snd (synthesize rt text voice_name)) = Some file
    /\ (forall k, ~ (inject_Z k == bytesPerSample (bitsPerSampleOf mime))%Q)
    /\ (forall k, ~ (inject_Z k == blockAlign (bitsPerSampleOf mime))%Q)
    /\ (byteRate (sampleRateOf mime) (bitsPerSampleOf mime)
        == inject_Z (sampleRateOf mime) * blockAlign (bitsPerSampleOf mime))%Q
    /\ ((exists k,
           (inject_Z k
            == byteRate (sampleRateOf mime) (bitsPerSampleOf mime))%Q)
        <-> (sampleRateOf mime * bitsPerSampleOf mime) mod 8 = 0)
    /\ getUint16LE 32 file = Some ((bitsPerSampleOf mime / 8) mod 2 ^ 16)
    /\ getUint32LE 28 file
       = Some ((sampleRateOf mime * bitsPerSampleOf mime / 8) mod 2 ^ 32)
    /\ (forall align,
          getUint16LE 32 file = Some align ->
          ~ (inject_Z align
             == inject_Z numChannels * bytesPerSample (bitsPerSampleOf mime))%Q).
Proof.
  intros Hd _ Hm.
  pose proof (sampleRateOf_nonneg mime) as Hs0.
  pose proof (bitsPerSampleOf_nonneg mime) as Hb0.
  set (s := sampleRateOf mime) in *. set (b := bitsPerSampleOf mime) in *.
  exists (wavBuffer mime pcm).
  rewrite (synthesize_delivered _ _ _ _ _ Hd). cbn [snd written outputDir].
  destruct (wavBuffer_fields mime pcm)
    as (_ & _ & _ & _ & _ & H28 & H32 & _ & _).
  fold s b in H28, H32.
  unfold ToUint32 in H28. unfold ToUint16 in H32.
  rewrite truncate_byteRate, Z.quot_div_nonneg in H28
    by (try apply Z.mul_nonneg_nonneg; lia).
  rewrite truncate_blockAlign, Z.quot_div_nonneg in H32 by lia.
  assert (Hfrac : forall k, ~ (inject_Z k == blockAlign b)%Q).
  { intros k. rewrite blockAlign_bytesPerSample. unfold numChannels.
    rewrite Qmult_1_l. apply fractional_bytesPerSample, Hm. }
  split; [reflexivity|].
  split; [intros k; apply fractional_bytesPerSample, Hm|].
  split; [exact Hfrac|].
  split; [reflexivity|].
  split; [apply byteRate_whole|].
  split; [exact H32|].
  split; [exact H28|].
  intros align _. rewrite <- blockAlign_bytesPerSample. apply Hfrac.
Qed.

Lemma C10_witness :
  exists file,
    written (snd (synthesize (studio "audio/L12;codec=pcm;rate=11025" [x01; x02; x03])
                    "hello" None))
    = Some file
    /\ ~ (exists k, (inject_Z k == byteRate 11025 12)%Q)
    /\ getUint16LE 32 file = Some 1
    /\ getUint32LE 28 file = Some 16537.
Proof.
  destruct (C10_unchecked_bit_depth
              (studio "audio/L12;codec=pcm;rate=11025" [x01; x02; x03])
              "hello" None "audio/L12;codec=pcm;rate=11025" [x01; x02; x03])
    as (file & Hfile & _ & _ & _ & Hwhole & H32 & H28 & _).
  - delivered.
  - repeat split; reflexivity.
  - discriminate.
  - exists file. split; [exact Hfile|]. split; [|split; assumption].
    intros Hk. apply Hwhole in Hk. discriminate Hk.
Defined.

(** *** The encoder always returns *)

(** A [try] whose handler returns always returns. *)
Lemma try_catch_returns {S A} (body : M S A) (handler : Error -> M S A) s :
  (forall e s', exists a, fst (handler e s') = Normal a) ->
  exists a, fst (try_catch body handler s) = Normal a.
Proof.
  intros Hh. unfold try_catch. destruct (body s) as [[a|e] s'].
  - exists a. reflexivity.
  - apply Hh.
Qed.

(** The part of C9 that holds for the encoder: whatever the file
    system, the network and the decoder do, the invocation returns a
    string. *)
Lemma generate_and_save_audio_returns rt text voice_name :
  exists s, fst (synthesize rt text voice_name) = Normal s.
Proof.
  unfold synthesize, generate_and_save_audio. apply try_catch_returns.
  intros e s'. eexists. reflexivity.
Qed.

End SpeechEncoderFacts.

(** * More on the Query Gateway *)

Module QueryGatewayLaws.

Import QueryGateway QueryGatewayFacts.

(** The database is contacted exactly when the trimmed, lowercased
    statement starts with one of the four keywords. *)
Theorem database_contacted_iff_allowed db query :
  snd (invoke db query) <> []
  <-> (startsWith (toLowerCase (trim query)) "select"
       || startsWith (toLowerCase (trim query)) "describe"
       || startsWith (toLowerCase (trim query)) "insert"
       || startsWith (toLowerCase (trim query)) "show") = true.
Proof.
  destruct (startsWith (toLowerCase (trim query)) "select"
            || startsWith (toLowerCase (trim query)) "describe"
            || startsWith (toLowerCase (trim query)) "insert"
            || startsWith (toLowerCase (trim query)) "show") eqn:Hok.
  - split; [reflexivity|]. intros _.
    destruct (allowed_reaches_database db query Hok) as [rest ->]. discriminate.
  - apply orb_false_elim in Hok as [Hok Hw].
    apply orb_false_elim in Hok as [Hok Hi].
    apply orb_false_elim in Hok as [Hs Hd].
    rewrite (invoke_refused db query Hs Hd Hi Hw). cbn [snd].
    split; [congruence|discriminate].
Qed.

(** One connection per call, released exactly when it was opened: the
    calls are none at all, or a failed [createConnection] alone, or
    [createConnection], one [execute] of the trimmed statement as typed,
    and [end], in this order. *)
Theorem connection_discipline db query :
  snd (invoke db query) = []
  \/ (snd (invoke db query) = [CreateConnection]
      /\ exists e, db_createConnection db = Throw e)
  \/ (snd (invoke db query)
      = [CreateConnection; Execute (trim query); ConnectionEnd]
      /\ exists c, db_createConnection db = Normal c).
Proof.
  destruct (startsWith (toLowerCase (trim query)) "select"
            || startsWith (toLowerCase (trim query)) "describe"
            || startsWith (toLowerCase (trim query)) "insert"
            || startsWith (toLowerCase (trim query)) "show") eqn:Hok.
  - rewrite (invoke_allowed db query Hok).
    destruct (db_createConnection db) as [c|e]; cbn [snd].
    + right. right. eauto.
    + right. left. eauto.
  - apply orb_false_elim in Hok as [Hok Hw].
    apply orb_false_elim in Hok as [Hok Hi].
    apply orb_false_elim in Hok as [Hs Hd].
    rewrite (invoke_refused db query Hs Hd Hi Hw). left. reflexivity.
Qed.

(** An error raised while connecting or executing is answered by its
    category: the two known driver codes get their fixed guidance, which
    leaves the driver's message out, and every other error is quoted in
    the generic sentence. *)
Theorem database_error_reported db query e :
  (startsWith (toLowerCase (trim query)) "select"
   || startsWith (toLowerCase (trim query)) "describe"
   || startsWith (toLowerCase (trim query)) "insert"
   || startsWith (toLowerCase (trim query)) "show") = true ->
  db_end db = Normal tt ->
  db_createConnection db = Throw e
  \/ (exists c, db_createConnection db = Normal c)
     /\ db_execute db (trim query) = Throw e ->
  (code e = Some "ER_NO_SUCH_TABLE" ->
   fst (invoke db query)
   = Normal "Table not found. Please check the table name. Available tables might include: games, cards etc.")
  /\ (code e = Some "ER_BAD_FIELD_ERROR" ->
      fst (invoke db query)
      = Normal "Column not found. Please check your column names. Use DESCRIBE tablename to see available columns.")
  /\ (code e <> Some "ER_NO_SUCH_TABLE" ->
      code e <> Some "ER_BAD_FIELD_ERROR" ->
      fst (invoke db query)
      = Normal ("Database error: " +:+ message e
                  +:+ ". Please check your SQL syntax.")).
Proof.
  intros Hok Hend Hfail.
  assert (Hrun : fst (invoke db query) = Normal (describe_error e)).
  { rewrite (invoke_allowed db query Hok).
    destruct Hfail as [Hc|[[c Hc] He]]; rewrite Hc; [reflexivity|].
    rewrite He, Hend. reflexivity. }
  rewrite Hrun. unfold describe_error, code_is.
  destruct (code e) as [c|].
  - destruct (String.eqb_spec c "ER_NO_SUCH_TABLE") as [->|Hn1].
    + repeat split; [discriminate|congruence].
    + destruct (String.eqb_spec c "ER_BAD_FIELD_ERROR") as [->|Hn2].
      * repeat split; congruence.
      * repeat split; congruence.
  - repeat split; congruence.
Qed.

Lemma database_error_reported_witness :
  fst (invoke (database (Normal TheConnection)
                 (Throw {| code := Some "ER_PARSE_ERROR";
                           message := "You have an error in your SQL syntax" |})
                 (Normal tt)) "SELECT * FORM cards")
  = Normal "Database error: You have an error in your SQL syntax. Please check your SQL syntax.".
Proof.
  apply (database_error_reported
           (database (Normal TheConnection)
              (Throw {| code := Some "ER_PARSE_ERROR";
                        message := "You have an error in your SQL syntax" |})
              (Normal tt))
           "SELECT * FORM cards"
           {| code := Some "ER_PARSE_ERROR";
              message := "You have an error in your SQL syntax" |}).
  - reflexivity.
  - reflexivity.
  - right. split; [exists TheConnection|]; reflexivity.
  - discriminate.
  - discriminate.
Defined.

Lemma release_error_escapes_witness :
  fst (invoke (database (Normal TheConnection) (Throw connection_lost)
                 (Throw connection_lost)) "show tables")
  = Throw connection_lost.
Proof.
  apply (release_error_escapes
           (database (Normal TheConnection) (Throw connection_lost)
              (Throw connection_lost))
           "show tables" TheConnection connection_lost); reflexivity.
Defined.

Lemma run_mysql_query_returns_witness :
  exists s,
    fst (invoke (database (Throw connection_lost) (Throw connection_lost)
                   (Normal tt)) "describe cards")
    = Normal s.
Proof.
  apply (run_mysql_query_returns
           (database (Throw connection_lost) (Throw connection_lost)
              (Normal tt)) "describe cards").
  reflexivity.
Defined.

(** A statement whose first word is one of the four keywords, in any
    letter case and with any white space around it, is sent to the
    database. *)
Theorem keyword_statement_reaches_database db query :
  isKeyword (leadingToken query) = true ->
  exists rest, snd (invoke db query) = CreateConnection :: rest.
Proof.
  intros Hk. apply allowed_reaches_database, keyword_token_allowed, Hk.
Qed.

Lemma keyword_statement_reaches_database_witness :
  exists rest,
    snd (invoke quiet "   ShOw TABLES  ") = CreateConnection :: rest.
Proof.
  apply (keyword_statement_reaches_database quiet "   ShOw TABLES  ").
  reflexivity.
Defined.

(** The branch is chosen by the keyword, not by what the driver gives
    back. An [insert] for which the driver returns rows is answered as
    one that affected no row, the rows being dropped; a statement that
    reads and gets a result header back (no array) is answered with the
    generic database-error sentence although the statement succeeded. *)
Theorem result_kind_mismatch db query c :
  db_createConnection db = Normal c ->
  db_end db = Normal tt ->
  (forall rows,
     startsWith (toLowerCase (trim query)) "insert" = true ->
     db_execute db (trim query) = Normal (RowSet rows) ->
     fst (invoke db query) = Normal no_rows_affected)
  /\ (forall affectedRows insertId,
        reads query = true ->
        db_execute db (trim query)
        = Normal (ResultSetHeader affectedRows insertId) ->
        exists thrown,
          fst (invoke db query)
          = Normal ("Database error: " +:+ thrown
                      +:+ ". Please check your SQL syntax.")).
Proof.
  intros Hc Hend. split.
  - intros rows Hi He.
    assert (Hok : (startsWith (toLowerCase (trim query)) "select"
                   || startsWith (toLowerCase (trim query)) "describe"
                   || startsWith (toLowerCase (trim query)) "insert"
                   || startsWith (toLowerCase (trim query)) "show") = true).
    { rewrite Hi. repeat rewrite orb_true_r. reflexivity. }
    rewrite (invoke_allowed db query Hok), Hc, He, Hend, Hi. reflexivity.
  - intros a i Hr He.
    rewrite (invoke_allowed db query (reads_allowed query Hr)).
    rewrite Hc, He, Hend, (reads_not_insert query Hr).
    eexists. reflexivity.
Qed.

Lemma result_kind_mismatch_witness :
  fst (invoke (database (Normal TheConnection) (Normal (RowSet eleven))
                 (Normal tt)) "INSERT INTO cards SELECT * FROM drafts RETURNING id")
  = Normal no_rows_affected.
Proof.
  destruct (result_kind_mismatch
              (database (Normal TheConnection) (Normal (RowSet eleven))
                 (Normal tt))
              "INSERT INTO cards SELECT * FROM drafts RETURNING id"
              TheConnection eq_refl eq_refl) as [Hins _].
  apply (Hins eleven); reflexivity.
Defined.

End QueryGatewayLaws.

(** * More on the Speech Container Encoder *)

Module SpeechEncoderLaws.

Import SpeechEncoder SpeechEncoderFacts Descriptor.

(** Every path of the encoder, in one equation. *)
Lemma synthesize_paths rt text voice_name :
  let url := apiUrl rt in
  let payload := request text (default "Charon" voice_name) in
  let sentence (e : Error) :=
    "An error occurred during audio generation: " +:+ message e in
  synthesize rt text voice_name =
    match fs_mkdir rt outputDir with
    | Throw e => (Normal (sentence e), [Mkdir outputDir])
    | Normal _ =>
        (match net_fetch rt url payload with
         | Throw e => Normal (sentence e)
         | Normal response =>
             match response_json response with
             | Throw e => Normal (sentence e)
             | Normal result =>
                 if negb (truthy (audioData result))
                    || negb (truthy (mimeType result))
                 then Normal no_audio
                 else
                   match mimeType result with
                   | Some (JString mime) =>
                       match Buffer_from_base64 rt (audioData result) with
                       | Throw e => Normal (sentence e)
                       | Normal pcm =>
                           match fs_writeFile rt (filePath rt)
                                   (wavBuffer mime pcm) with
                           | Normal _ =>
                               Normal ("Audio successfully saved to: "
                                         +:+ filePath rt)
                           | Throw e => Normal (sentence e)
                           end
                       end
                   | None =>
                       Normal (sentence (TypeError "Cannot read properties of undefined (reading 'match')"))
                   | Some JNull =>
                       Normal (sentence (TypeError "Cannot read properties of null (reading 'match')"))
                   | Some _ =>
                       Normal (sentence (TypeError "mimeType.match is not a function"))
                   end
             end
         end,
         ([Mkdir outputDir; Fetch url payload]
         ++ match net_fetch rt url payload with
            | Normal response =>
                match response_json response with
                | Normal result =>
                    if negb (truthy (audioData result))
                       || negb (truthy (mimeType result))
                    then []
                    else
                      match mimeType result with
                      | Some (JString mime) =>
                          match Buffer_from_base64 rt (audioData result) with
                          | Normal pcm =>
                              [WriteFile (filePath rt) (wavBuffer mime pcm)]
                          | Throw _ => []
                          end
                      | _ => []
                      end
                | Throw _ => []
                end
            | Throw _ => []
            end)%list)
    end.
Proof.
  intros url payload sentence. subst url payload sentence. run_tool.
  destruct (fs_mkdir rt outputDir) as [u|e]; [|reflexivity].
  destruct (net_fetch rt _ _) as [response|e]; [|reflexivity].
  destruct (response_json response) as [result|e]; [|reflexivity].
  destruct (negb (truthy (audioData result)) || negb (truthy (mimeType result)));
    [reflexivity|].
  destruct (mimeType result) as [[| | |mime| |]|]; try reflexivity.
  destruct (Buffer_from_base64 rt (audioData result)) as [pcm|e]; [|reflexivity].
  rewrite writeHeader_layout. cbn [app].
  unfold wavBuffer, sampleRateOf, bitsPerSampleOf.
  destruct (fs_writeFile rt _ _); reflexivity.
Qed.

(** The effects come in one order and stop at the first failure: the
    directory is created first; the request is sent only if that worked;
    at most one file is written, after everything else, at the path
    built from the fresh identifier. *)
Theorem effects_in_order rt text voice_name :
  (snd (synthesize rt text voice_name) = [Mkdir outputDir]
   /\ exists e, fs_mkdir rt outputDir = Throw e)
  \/ (fs_mkdir rt outputDir = Normal tt
      /\ (snd (synthesize rt text voice_name)
          = [Mkdir outputDir;
             Fetch (apiUrl rt) (request text (default "Charon" voice_name))]
          \/ exists data,
               snd (synthesize rt text voice_name)
               = [Mkdir outputDir;
                  Fetch (apiUrl rt) (request text (default "Charon" voice_name));
                  WriteFile (filePath rt) data])).
Proof.
  rewrite synthesize_paths.
  destruct (fs_mkdir rt outputDir) as [[]|e]; cbn [snd]; [right|left; eauto].
  split; [reflexivity|].
  destruct (net_fetch rt _ _) as [response|e]; [|left; reflexivity].
  destruct (response_json response) as [result|e]; [|left; reflexivity].
  destruct (negb (truthy (audioData result)) || negb (truthy (mimeType result)));
    [left; reflexivity|].
  destruct (mimeType result) as [[| | |mime| |]|]; try (left; reflexivity).
  destruct (Buffer_from_base64 rt (audioData result)) as [pcm|e];
    [right; eexists|left]; reflexivity.
Qed.

(** Success is announced exactly when a file was written and the write
    succeeded. *)
Theorem success_iff_written rt text voice_name :
  fst (synthesize rt text voice_name)
  = Normal ("Audio successfully saved to: " +:+ filePath rt)
  <-> exists data,
        snd (synthesize rt text voice_name)
        = [Mkdir outputDir;
           Fetch (apiUrl rt) (request text (default "Charon" voice_name));
           WriteFile (filePath rt) data]
        /\ fs_writeFile rt (filePath rt) data = Normal tt.
Proof.
  rewrite synthesize_paths.
  destruct (fs_mkdir rt outputDir) as [[]|e]; cbn [fst snd].
  2:{ split; [intros H; discriminate H
              |intros (data & Hlog & _); discriminate Hlog]. }
  destruct (net_fetch rt _ _) as [response|e].
  2:{ split; [intros H; discriminate H
              |intros (data & Hlog & _); discriminate Hlog]. }
  destruct (response_json response) as [result|e].
  2:{ split; [intros H; discriminate H
              |intros (data & Hlog & _); discriminate Hlog]. }
  destruct (negb (truthy (audioData result)) || negb (truthy (mimeType result))).
  { split; [intros H; discriminate H
            |intros (data & Hlog & _); discriminate Hlog]. }
  destruct (mimeType result) as [[| | |mime| |]|];
    try (split; [intros H; discriminate H
                |intros (data & Hlog & _); discriminate Hlog]).
  destruct (Buffer_from_base64 rt (audioData result)) as [pcm|e].
  2:{ split; [intros H; discriminate H
              |intros (data & Hlog & _); discriminate Hlog]. }
  cbn [app]. split.
  - destruct (fs_writeFile rt (filePath rt) (wavBuffer mime pcm)) as [[]|e] eqn:Hw.
    + intros _. exists (wavBuffer mime pcm). split; [reflexivity|exact Hw].
    + intros H. discriminate H.
  - intros (data & [= <-] & Hw). rewrite Hw. reflexivity.
Qed.

(** A failure of the directory, of the network, of the JSON parsing or
    of the payload decoding is answered with the error sentence that
    quotes the message of that failure, and no file is written. *)
Theorem failure_reported_nothing_written rt text voice_name e :
  fs_mkdir rt outputDir = Throw e
  \/ (fs_mkdir rt outputDir = Normal tt
      /\ (net_fetch rt (apiUrl rt) (request text (default "Charon" voice_name))
          = Throw e
          \/ exists response,
               net_fetch rt (apiUrl rt)
                 (request text (default "Charon" voice_name))
               = Normal response
               /\ (response_json response = Throw e
                   \/ exists result mime,
                        response_json response = Normal result
                        /\ truthy (audioData result) = true
                        /\ mimeType result = Some (JString mime)
                        /\ mime <> ""
                        /\ Buffer_from_base64 rt (audioData result)
                           = Throw e))) ->
  fst (synthesize rt text voice_name)
  = Normal ("An error occurred during audio generation: " +:+ message e)
  /\ written (snd (synthesize rt text voice_name)) = None.
Proof.
  rewrite synthesize_paths.
  intros [Hmk|[Hmk [Hf|(response & Hf & [Hj|(result & mime & Hj & Hd & Hm & Hne & Hb)])]]];
    rewrite Hmk; try rewrite Hf; try rewrite Hj; try (split; reflexivity).
  rewrite Hd, Hm, Hb.
  assert (Ht : truthy (Some (JString mime)) = true).
  { destruct mime; [congruence|reflexivity]. }
  rewrite Ht. split; reflexivity.
Qed.

Lemma failure_reported_nothing_written_witness :
  fst (synthesize
         {| GEMINI_API_KEY := None;
            fs_mkdir := fun _ => Normal tt;
            net_fetch := fun _ _ => Throw (TypeError "fetch failed");
            Buffer_from_base64 := fun _ => Normal [];
            uuidv4 := "c0ffee00-0000-4000-8000-000000000000";
            fs_writeFile := fun _ _ => Normal tt |} "hello" None)
  = Normal "An error occurred during audio generation: fetch failed".
Proof.
  apply (failure_reported_nothing_written
           {| GEMINI_API_KEY := None;
              fs_mkdir := fun _ => Normal tt;
              net_fetch := fun _ _ => Throw (TypeError "fetch failed");
              Buffer_from_base64 := fun _ => Normal [];
              uuidv4 := "c0ffee00-0000-4000-8000-000000000000";
              fs_writeFile := fun _ _ => Normal tt |} "hello" None
           (TypeError "fetch failed")).
  right. split; [reflexivity|]. left. reflexivity.
Defined.

(** A payload that comes with a descriptor that is not a string (a
    number, [true], an array, an object) is not encoded: calling [match]
    on it raises, the error sentence is returned and no file is written. *)
Theorem descriptor_must_be_text rt text voice_name response result :
  fs_mkdir rt outputDir = Normal tt ->
  net_fetch rt (apiUrl rt) (request text (default "Charon" voice_name))
  = Normal response ->
  response_json response = Normal result ->
  truthy (audioData result) = true ->
  truthy (mimeType result) = true ->
  (forall mime, mimeType result <> Some (JString mime)) ->
  fst (synthesize rt text voice_name)
  = Normal "An error occurred during audio generation: mimeType.match is not a function"
  /\ written (snd (synthesize rt text voice_name)) = None.
Proof.
  intros Hmk Hf Hj Hd Ht Hns. rewrite synthesize_paths.
  rewrite Hmk, Hf, Hj, Hd, Ht. cbn [negb orb].
  destruct (mimeType result) as [[| | |mime| |]|];
    try discriminate Ht; try (split; reflexivity).
  exfalso. apply (Hns mime). reflexivity.
Qed.

Lemma descriptor_must_be_text_witness :
  written
    (snd (synthesize
            (answering
               (JObject [("candidates", JArray [JObject [("content",
                  JObject [("parts", JArray [JObject [("inlineData",
                    JObject [("mimeType", JNumber 16); ("data", JString "AAAA")])]])])]])]))
            "hello" None))
  = None.
Proof.
  apply (descriptor_must_be_text
           (answering
              (JObject [("candidates", JArray [JObject [("content",
                 JObject [("parts", JArray [JObject [("inlineData",
                   JObject [("mimeType", JNumber 16); ("data", JString "AAAA")])]])])]])]))
           "hello" None
           {| response_json :=
               Normal (JObject [("candidates", JArray [JObject [("content",
                 JObject [("parts", JArray [JObject [("inlineData",
                   JObject [("mimeType", JNumber 16); ("data", JString "AAAA")])]])])]])]) |}
           (JObject [("candidates", JArray [JObject [("content",
              JObject [("parts", JArray [JObject [("inlineData",
                JObject [("mimeType", JNumber 16); ("data", JString "AAAA")])]])])]])]));
    try reflexivity.
  intros mime. discriminate.
Defined.

(** The thirteen writes cover the 44 bytes of the header exactly: on
    any 44-byte buffer, whatever it held, they leave the same header and
    none of them is out of bounds; on a shorter buffer one of them
    raises. *)
Theorem writeHeader_fills_buffer sampleRate bitsPerSample dataSize buf :
  (length buf = 44%nat ->
   writeHeader sampleRate bitsPerSample dataSize buf
   = (Normal tt, headerOf sampleRate bitsPerSample dataSize))
  /\ ((length buf < 44)%nat ->
      exists e, fst (writeHeader sampleRate bitsPerSample dataSize buf) = Throw e).
Proof.
  split; intros Hlen.
  - do 44 (destruct buf as [|? buf]; [discriminate Hlen|]).
    destruct buf; [reflexivity|discriminate Hlen].
  - do 44 (destruct buf as [|? buf]; [eexists; reflexivity|]).
    cbn [length] in Hlen. lia.
Qed.

Lemma writeHeader_fills_buffer_witness :
  writeHeader 24000 16 4 (replicate 44 xff) = (Normal tt, headerOf 24000 16 4).
Proof.
  apply (writeHeader_fills_buffer 24000 16 4 (replicate 44 xff)). reflexivity.
Defined.

(** No range is checked: each size and format field holds its value
    reduced modulo the width of the field, so a declared rate of 2^32 or
    more, or a bit depth of 2^16 or more, wraps around silently. *)
Theorem header_fields_wrap rt text voice_name mime pcm :
  delivers rt text voice_name mime pcm ->
  sampleRateOf mime < 2 ^ 53 ->
  bitsPerSampleOf mime < 2 ^ 53 ->
  exists file,
    written (snd (synthesize rt text voice_name)) = Some file
    /\ getUint32LE 4 file = Some ((36 + Z.of_nat (length pcm)) mod 2 ^ 32)
    /\ getUint32LE 24 file = Some (sampleRateOf mime mod 2 ^ 32)
    /\ getUint16LE 34 file = Some (bitsPerSampleOf mime mod 2 ^ 16)
    /\ getUint32LE 40 file = Some (Z.of_nat (length pcm) mod 2 ^ 32).
Proof.
  intros Hd _ _. exists (wavBuffer mime pcm).
  rewrite (synthesize_delivered _ _ _ _ _ Hd). cbn [snd written outputDir].
  destruct (wavBuffer_fields mime pcm)
    as (H4 & _ & _ & _ & H24 & _ & _ & H34 & H40).
  unfold ToUint32, ToUint16 in *. rewrite !truncate_inject_Z in *.
  repeat split; assumption.
Qed.

Lemma header_fields_wrap_witness :
  exists file,
    written (snd (synthesize (studio "audio/L65552;rate=4294991296" [x01; x02])
                    "hello" None))
    = Some file
    /\ getUint32LE 24 file = Some 24000
    /\ getUint16LE 34 file = Some 16.
Proof.
  destruct (header_fields_wrap
              (studio "audio/L65552;rate=4294991296" [x01; x02]) "hello" None
              "audio/L65552;rate=4294991296" [x01; x02])
    as (file & Hfile & _ & H24 & H34 & _).
  - delivered.
  - reflexivity.
  - reflexivity.
  - exists file. repeat split; assumption.
Defined.

(** The one request of an invocation carries the text as given and the
    voice asked for, [Charon] when none was, and asks for audio. *)
Theorem request_carries_text_and_voice rt text voice_name :
  fs_mkdir rt outputDir = Normal tt ->
  exists payload rest,
    snd (synthesize rt text voice_name)
    = Mkdir outputDir :: Fetch (apiUrl rt) payload :: rest
    /\ prop "text" (first (prop "parts" (first (prop "contents" (Some payload)))))
       = Some (JString text)
    /\ prop "voiceName"
         (prop "prebuiltVoiceConfig"
            (prop "voiceConfig"
               (prop "speechConfig" (prop "generationConfig" (Some payload)))))
       = Some (JString (match voice_name with
                        | Some voice => voice
                        | None => "Charon"
                        end))
    /\ first (prop "responseModalities" (prop "generationConfig" (Some payload)))
       = Some (JString "AUDIO").
Proof.
  intros Hmk. rewrite synthesize_paths, Hmk. cbn [snd app].
  do 2 eexists. split; [reflexivity|].
  destruct voice_name; repeat split; reflexivity.
Qed.

Lemma request_carries_text_and_voice_witness :
  exists payload rest,
    snd (synthesize (studio "audio/L16;codec=pcm;rate=24000" [x01; x02])
           "Welcome" None)
    = Mkdir outputDir
      :: Fetch (apiUrl (studio "audio/L16;codec=pcm;rate=24000" [x01; x02]))
           payload
      :: rest
    /\ prop "voiceName"
         (prop "prebuiltVoiceConfig"
            (prop "voiceConfig"
               (prop "speechConfig" (prop "generationConfig" (Some payload)))))
       = Some (JString "Charon").
Proof.
  destruct (request_carries_text_and_voice
              (studio "audio/L16;codec=pcm;rate=24000" [x01; x02])
              "Welcome" None eq_refl)
    as (payload & rest & Hlog & _ & Hvoice & _).
  exists payload, rest. split; assumption.
Defined.

(** *** Reading the descriptor *)

Lemma parseDigits_stops acc rest : stops rest -> parseDigits acc rest = acc.
Proof. destruct rest as [|c r]; simpl; [reflexivity|]. intros ->. reflexivity. Qed.

Lemma digits_stops rest : stops rest -> digits rest = "".
Proof. destruct rest as [|c r]; simpl; [reflexivity|]. intros ->. reflexivity. Qed.

Lemma parseDigits_uint_acc d acc rest :
  parseDigits (Z.pos acc) (NilEmpty.string_of_uint d +:+ rest)
  = parseDigits (Z.pos (Pos.of_uint_acc d acc)) rest.
Proof.
  revert acc.
  induction d; intros acc; cbn [NilEmpty.string_of_uint Pos.of_uint_acc];
    [reflexivity|..];
    rewrite append_cons; cbn [parseDigits];
    match goal with |- context [isDigit ?c] => change (isDigit c) with true end;
    cbv iota; rewrite <- IHd; f_equal;
    unfold digitValue;
    match goal with
    | |- context [Z.of_nat ?n] =>
        let v := eval vm_compute in (Z.of_nat n) in change (Z.of_nat n) with v
    | _ => idtac
    end; lia.
Qed.

Lemma parseDigits_uint d rest :
  parseDigits 0 (NilEmpty.string_of_uint d +:+ rest)
  = parseDigits (Z.of_N (Pos.of_uint d)) rest.
Proof.
  induction d; cbn [NilEmpty.string_of_uint Pos.of_uint]; [reflexivity|..];
    rewrite append_cons; cbn [parseDigits];
    match goal with |- context [isDigit ?c] => change (isDigit c) with true end;
    cbv iota; [exact IHd|..]; apply parseDigits_uint_acc.
Qed.

Lemma digits_uint d rest :
  stops rest ->
  digits (NilEmpty.string_of_uint d +:+ rest) = NilEmpty.string_of_uint d.
Proof.
  intros Hs. induction d; cbn [NilEmpty.string_of_uint];
    [destruct rest; [reflexivity|apply digits_stops, Hs]|..];
    rewrite append_cons; cbn [digits];
    match goal with |- context [isDigit ?c] => change (isDigit c) with true end;
    cbv iota; rewrite IHd; reflexivity.
Qed.

(** The decimal numeral of a natural number, as [`${n}`] prints it. *)
Lemma ofZ_pos p : ofZ (Z.pos p) = NilEmpty.string_of_uint (Pos.to_uint p).
Proof.
  unfold ofZ. cbn [Z.to_int NilZero.string_of_int NilZero.string_of_uint].
  destruct (Pos.to_uint p) eqn:E; try reflexivity.
  exfalso. pose proof (DecimalPos.Unsigned.of_to p) as H. rewrite E in H. discriminate H.
Qed.

Lemma parseDigits_ofZ n rest :
  0 <= n -> stops rest -> parseDigits 0 (ofZ n +:+ rest) = n.
Proof.
  intros Hn Hs. destruct n as [|p|p]; [|..|lia].
  - change (ofZ 0 +:+ rest) with (String "0" rest). cbn [parseDigits].
    change (isDigit "0") with true. cbv iota.
    apply parseDigits_stops, Hs.
  - rewrite ofZ_pos, parseDigits_uint, DecimalPos.Unsigned.of_to.
    apply parseDigits_stops, Hs.
Qed.

Lemma digits_ofZ n rest :
  0 <= n -> stops rest -> digits (ofZ n +:+ rest) = ofZ n /\ ofZ n <> "".
Proof.
  intros Hn Hs. destruct n as [|p|p]; [|..|lia].
  - change (ofZ 0 +:+ rest) with (String "0" rest). cbn [digits].
    change (isDigit "0") with true. cbv iota.
    rewrite (digits_stops _ Hs). split; [reflexivity|discriminate].
  - rewrite ofZ_pos. split; [apply digits_uint, Hs|].
    destruct (Pos.to_uint p) eqn:E; try discriminate.
    exfalso. pose proof (DecimalPos.Unsigned.of_to p) as H. rewrite E in H. discriminate H.
Qed.

(** A stretch of text without the first character of the literal
    cannot hold the start of a match. *)
Lemma match_digits_skip l0 lit pre rest :
  avoids l0 pre = true ->
  match_digits (String l0 lit) (pre +:+ rest) = match_digits (String l0 lit) rest.
Proof.
  induction pre as [|c pre IH]; [reflexivity|].
  cbn [avoids]. intros H. apply andb_prop in H as [Hc Hp].
  rewrite append_cons. cbn [match_digits].
  assert (Hm : match_here (String l0 lit) (String c (pre +:+ rest)) = None).
  { unfold match_here, startsWith. cbn [String.prefix].
    destruct (ascii_dec l0 c) as [->|_]; [|reflexivity].
    rewrite Ascii.eqb_refl in Hc. discriminate Hc. }
  rewrite Hm. apply IH, Hp.
Qed.

Lemma avoids_uint c0 d :
  isDigit c0 = false -> avoids c0 (NilEmpty.string_of_uint d) = true.
Proof.
  intros Hc. induction d; cbn [NilEmpty.string_of_uint avoids];
    [reflexivity|..]; rewrite IHd, andb_true_r;
    match goal with
    | |- negb (Ascii.eqb ?c c0) = true =>
        destruct (Ascii.eqb_spec c c0) as [<-|_]; [discriminate Hc|reflexivity]
    end.
Qed.

Lemma avoids_ofZ c0 n : 0 <= n -> isDigit c0 = false -> avoids c0 (ofZ n) = true.
Proof.
  intros Hn Hc. destruct n as [|p|p]; [|..|lia].
  - change (ofZ 0) with "0". cbn [avoids].
    destruct (Ascii.eqb_spec "0"%char c0) as [<-|_]; [discriminate Hc|reflexivity].
  - rewrite ofZ_pos. apply avoids_uint, Hc.
Qed.

Lemma append_nil_r s : s +:+ "" = s.
Proof. induction s as [|c s IH]; [reflexivity|]. rewrite append_cons, IH. reflexivity. Qed.

Lemma parseInt_ofZ n : 0 <= n -> parseInt (ofZ n) = n.
Proof.
  intros Hn. unfold parseInt. rewrite <- (append_nil_r (ofZ n)).
  apply parseDigits_ofZ; [exact Hn|exact I].
Qed.

(** Reading back: the values derived from the API's descriptor are the
    bit depth and the rate it was written with. *)
Theorem descriptor_round_trip bits rate :
  0 <= bits < 2 ^ 53 -> 0 <= rate < 2 ^ 53 ->
  bitsPerSampleOf (descriptor bits rate) = bits
  /\ sampleRateOf (descriptor bits rate) = rate.
Proof.
  intros [Hb _] [Hr _]. split.
  - unfold bitsPerSampleOf, descriptor.
    assert (Hm : match_digits "audio/L"
                   ("audio/L" +:+ ofZ bits +:+ ";codec=pcm;rate=" +:+ ofZ rate)
                 = Some (ofZ bits)).
    { change ("audio/L" +:+ ofZ bits +:+ ";codec=pcm;rate=" +:+ ofZ rate)
        with (String "a" ("udio/L" +:+ ofZ bits +:+ ";codec=pcm;rate=" +:+ ofZ rate)).
      cbn [match_digits]. unfold match_here, startsWith.
      change (String "a" ("udio/L" +:+ ofZ bits +:+ ";codec=pcm;rate=" +:+ ofZ rate))
        with ("audio/L" +:+ (ofZ bits +:+ ";codec=pcm;rate=" +:+ ofZ rate)).
      rewrite prefix_append, skip_append.
      destruct (digits_ofZ bits (";codec=pcm;rate=" +:+ ofZ rate) Hb eq_refl)
        as [-> Hne].
      destruct (ofZ bits); [congruence|reflexivity]. }
    rewrite Hm. unfold or_else.
    destruct (digits_ofZ bits "" Hb I) as [_ Hne].
    destruct (String.eqb_spec (ofZ bits) ""); [congruence|].
    apply parseInt_ofZ, Hb.
  - unfold sampleRateOf, descriptor.
    assert (Hm : match_digits "rate="
                   ("audio/L" +:+ ofZ bits +:+ ";codec=pcm;rate=" +:+ ofZ rate)
                 = Some (ofZ rate)).
    { rewrite (match_digits_skip "r" "ate=" "audio/L") by reflexivity.
      rewrite (match_digits_skip "r" "ate=" (ofZ bits))
        by (apply avoids_ofZ; [exact Hb|reflexivity]).
      change (";codec=pcm;rate=" +:+ ofZ rate)
        with (";codec=pcm;" +:+ "rate=" +:+ ofZ rate).
      rewrite (match_digits_skip "r" "ate=" ";codec=pcm;") by reflexivity.
      change ("rate=" +:+ ofZ rate) with (String "r" ("ate=" +:+ ofZ rate)).
      cbn [match_digits]. unfold match_here, startsWith.
      change (String "r" ("ate=" +:+ ofZ rate)) with ("rate=" +:+ ofZ rate).
      rewrite prefix_append, skip_append.
      rewrite <- (append_nil_r (ofZ rate)) at 1.
      destruct (digits_ofZ rate "" Hr I) as [-> Hne].
      destruct (ofZ rate); [congruence|reflexivity]. }
    rewrite Hm. unfold or_else.
    destruct (digits_ofZ rate "" Hr I) as [_ Hne].
    destruct (String.eqb_spec (ofZ rate) ""); [congruence|].
    apply parseInt_ofZ, Hr.
Qed.

Lemma descriptor_round_trip_witness :
  bitsPerSampleOf "audio/L16;codec=pcm;rate=24000" = 16
  /\ sampleRateOf "audio/L16;codec=pcm;rate=24000" = 24000.
Proof.
  apply (descriptor_round_trip 16 24000); split; reflexivity || discriminate.
Defined.

End SpeechEncoderLaws.

(** * Properties of the chat server *)

Module ServerFacts.

Import Server.

Ltac run_handler :=
  unfold post_chat, post_settings, get_settings, destructure, run_agent,
    new_HumanMessage, push, select_model, get_selectedModel, try_catch,
    mbind, M_bind, mret, M_ret, throw, await.

Lemma is_string_eq v s : is_string v s = true -> v = Some (JString s).
Proof.
  destruct v as [[| | |s'| |]|]; try discriminate. simpl.
  intros H. apply String.eqb_eq in H. congruence.
Qed.

(** A selection that is neither ['gemini'] nor ['openai'] (another
    string, another type, no [model] at all, no body) changes nothing:
    model, history and runs stay as they were, and the answer is the 400
    response, or the handler throws on a body it cannot destructure. *)
Theorem invalid_selection_changes_nothing req_body p :
  is_string (prop "model" req_body) "gemini" = false ->
  is_string (prop "model" req_body) "openai" = false ->
  snd (post_settings req_body p) = p
  /\ (fst (post_settings req_body p)
      = Normal {| status := 400;
                  body := JObject [("success", JBool false);
                                   ("message", JString "Invalid model selection")] |}
      \/ (req_body = None \/ req_body = Some JNull)
         /\ exists e, fst (post_settings req_body p) = Throw e).
Proof.
  intros Hg Ho. run_handler.
  destruct req_body as [[| | | | |]|]; cbn;
    try (split; [reflexivity|right; split; [auto|eexists; reflexivity]]);
    try (split; [reflexivity|left; reflexivity]).
  cbn in Hg, Ho. rewrite Hg, Ho. split; [reflexivity|left; reflexivity].
Qed.

Lemma invalid_selection_changes_nothing_witness :
  snd (post_settings (Some (JObject [("model", JString "claude")])) boot) = boot.
Proof.
  apply (invalid_selection_changes_nothing
           (Some (JObject [("model", JString "claude")])) boot); reflexivity.
Defined.

Lemma post_settings_valid props model p :
  own props "model" = Some (JString model) ->
  model = "gemini" \/ model = "openai" ->
  post_settings (Some (JObject props)) p
  = (Normal {| status := 200;
               body := JObject [("success", JBool true);
                                ("message",
                                 JString ("LLM switched to " +:+ model))] |},
     {| selectedModel := model; chatHistory := []; runs := runs p |}).
Proof.
  intros Hm Hv. run_handler. cbn [prop]. rewrite Hm.
  destruct Hv as [-> | ->]; reflexivity.
Qed.

Lemma post_settings_invalid_state req_body p :
  is_string (prop "model" req_body) "gemini" = false ->
  is_string (prop "model" req_body) "openai" = false ->
  snd (post_settings req_body p) = p.
Proof.
  intros Hg Ho. run_handler.
  destruct req_body as [[| | | | |]|]; cbn; try reflexivity.
  cbn in Hg, Ho. rewrite Hg, Ho. reflexivity.
Qed.

(** Switching and reading back: a valid selection answers 200 with the
    name in its message, empties the history whatever it held, and the
    next [GET /api/settings] reports the model just selected. *)
Theorem switch_then_get fw env props model p :
  own props "model" = Some (JString model) ->
  model = "gemini" \/ model = "openai" ->
  serve fw env [PostSettings (Some (JObject props)); GetSettings] p
  = ([Normal {| status := 200;
                body := JObject [("success", JBool true);
                                 ("message",
                                  JString ("LLM switched to " +:+ model))] |};
      Normal {| status := 200; body := JObject [("model", JString model)] |}],
     {| selectedModel := model; chatHistory := []; runs := runs p |}).
Proof.
  intros Hm Hv. cbn [serve handle].
  rewrite (post_settings_valid props model p Hm Hv). reflexivity.
Qed.

Lemma switch_then_get_witness :
  snd (serve {| agent_invoke := fun _ _ _ _ => Normal "hi";
                human_accepts := fun _ => Normal tt |}
         {| OPENAI_API_KEY := None; OPENAI_API_BASE_URL := None;
            GEMINI_API_KEY := None |}
         [PostSettings (Some (JObject [("model", JString "openai")]));
          GetSettings]
         {| selectedModel := "gemini";
            chatHistory := [HumanMessage (Some (JString "hello")); AIMessage "hi"];
            runs := [] |})
  = {| selectedModel := "openai"; chatHistory := []; runs := [] |}.
Proof.
  rewrite (switch_then_get
             {| agent_invoke := fun _ _ _ _ => Normal "hi";
                human_accepts := fun _ => Normal tt |}
             {| OPENAI_API_KEY := None; OPENAI_API_BASE_URL := None;
                GEMINI_API_KEY := None |}
             [("model", JString "openai")] "openai"
             {| selectedModel := "gemini";
                chatHistory := [HumanMessage (Some (JString "hello")); AIMessage "hi"];
                runs := [] |} eq_refl (or_intror eq_refl)).
  reflexivity.
Defined.

(** The chat handler, path by path. *)
Lemma post_chat_paths fw env req_body p :
  post_chat fw env req_body p =
    match req_body with
    | None | Some JNull => (Normal (res_status_json 500 apology), p)
    | Some _ =>
        let message := prop "message" req_body in
        let r := {| llm := getChatModel env p; input := message;
                    chat_history := chatHistory p |} in
        let ran := {| selectedModel := selectedModel p;
                      chatHistory := chatHistory p;
                      runs := runs p ++ [r] |} in
        match agent_invoke fw (length (runs p)) (getChatModel env p) message
                (chatHistory p) with
        | Throw _ => (Normal (res_status_json 500 apology), ran)
        | Normal output =>
            match (match message with
                   | Some (JString _) => Normal tt
                   | _ => human_accepts fw message
                   end) with
            | Throw _ => (Normal (res_status_json 500 apology), ran)
            | Normal _ =>
                (Normal (res_json (JObject [("reply", JString output)])),
                 {| selectedModel := selectedModel p;
                    chatHistory :=
                      (chatHistory p ++ [HumanMessage message]) ++ [AIMessage output];
                    runs := runs p ++ [r] |})
            end
        end
    end.
Proof.
  run_handler.
  destruct req_body as [body|]; [|reflexivity].
  destruct body; try reflexivity; cbv zeta;
    match goal with
    | |- context [agent_invoke fw _ _ ?m _] => generalize m; intros message
    end;
    (destruct (agent_invoke fw _ _ message _) as [output|e]; [|reflexivity]);
    (destruct message as [[| | |txt| |]|]; try reflexivity;
     destruct (human_accepts fw _); reflexivity).
Qed.

Lemma post_chat_state fw env req_body p :
  selectedModel (snd (post_chat fw env req_body p)) = selectedModel p
  /\ (chatHistory (snd (post_chat fw env req_body p)) = chatHistory p
      \/ exists message output,
           chatHistory (snd (post_chat fw env req_body p))
           = (chatHistory p
              ++ [HumanMessage message; AIMessage output])%list).
Proof.
  rewrite post_chat_paths.
  destruct req_body as [body|]; [|split; [reflexivity|left; reflexivity]].
  destruct body; try (split; [reflexivity|left; reflexivity]); cbv zeta;
    (destruct (agent_invoke fw _ _ _ _) as [output|e];
     [|split; [reflexivity|left; reflexivity]]);
    (match goal with
     | |- context [match ?c with Normal _ => _ | Throw _ => _ end] =>
         destruct c as [u|e]; [|split; [reflexivity|left; reflexivity]]
     end);
    (split; [reflexivity|right; do 2 eexists; cbn [snd chatHistory];
                         rewrite <- app_assoc; reflexivity]).
Qed.

(** Every path of the chat handler: it always answers; it answers 200
    with the agent's output exactly when it appended the exchange (the
    message, then the output) to the history, after one run of the agent
    on the selected model with the history as it was before; otherwise
    it answers 500 with the fixed apology and the history is untouched.
    The selected model never changes. *)
Theorem chat_outcomes fw env req_body p :
  exists resp,
    fst (post_chat fw env req_body p) = Normal resp
    /\ selectedModel (snd (post_chat fw env req_body p)) = selectedModel p
    /\ ((exists message output,
           resp = {| status := 200;
                     body := JObject [("reply", JString output)] |}
           /\ chatHistory (snd (post_chat fw env req_body p))
              = (chatHistory p ++ [HumanMessage message; AIMessage output])%list
           /\ runs (snd (post_chat fw env req_body p))
              = (runs p ++ [{| llm := getChatModel env p; input := message;
                               chat_history := chatHistory p |}])%list)
        \/ (resp = {| status := 500; body := apology |}
            /\ chatHistory (snd (post_chat fw env req_body p))
               = chatHistory p)).
Proof.
  rewrite post_chat_paths.
  assert (Hfail : forall q,
            selectedModel q = selectedModel p ->
            chatHistory q = chatHistory p ->
            exists resp,
              fst (Normal (res_status_json 500 apology), q) = Normal resp
              /\ selectedModel (snd (Normal (res_status_json 500 apology), q))
                 = selectedModel p
              /\ ((exists message output,
                     resp = {| status := 200;
                               body := JObject [("reply", JString output)] |}
                     /\ chatHistory (snd (Normal (res_status_json 500 apology), q))
                        = (chatHistory p
                           ++ [HumanMessage message; AIMessage output])%list
                     /\ runs (snd (Normal (res_status_json 500 apology), q))
                        = (runs p ++ [{| llm := getChatModel env p;
                                         input := message;
                                         chat_history := chatHistory p |}])%list)
                  \/ (resp = {| status := 500; body := apology |}
                      /\ chatHistory (snd (Normal (res_status_json 500 apology), q))
                         = chatHistory p))).
  { intros q Hm Hh. eexists. split; [reflexivity|]. split; [exact Hm|].
    right. split; [reflexivity|exact Hh]. }
  destruct req_body as [body|]; [|apply Hfail; reflexivity].
  destruct body; try (apply Hfail; reflexivity); cbv zeta;
    (destruct (agent_invoke fw _ _ _ _) as [output|e];
     [|apply Hfail; reflexivity]);
    (match goal with
     | |- context [match ?c with Normal _ => _ | Throw _ => _ end] =>
         destruct c as [u|e]; [|apply Hfail; reflexivity]
     end);
    (eexists; split; [reflexivity|]; split; [reflexivity|]; left;
     do 2 eexists; split; [reflexivity|];
     split; [cbn [snd chatHistory]; rewrite <- app_assoc; reflexivity
            |reflexivity]).
Qed.

(** For a text message the answer follows the agent: when the run
    resolves, the reply is its output and the exchange is appended; when
    it rejects, the answer is the apology with status 500 and the history
    keeps its length and content. *)
Theorem chat_follows_agent fw env props text p :
  own props "message" = Some (JString text) ->
  (forall output,
     agent_invoke fw (length (runs p)) (getChatModel env p)
       (Some (JString text)) (chatHistory p) = Normal output ->
     fst (post_chat fw env (Some (JObject props)) p)
     = Normal {| status := 200; body := JObject [("reply", JString output)] |}
     /\ chatHistory (snd (post_chat fw env (Some (JObject props)) p))
        = (chatHistory p
           ++ [HumanMessage (Some (JString text)); AIMessage output])%list)
  /\ (forall e,
        agent_invoke fw (length (runs p)) (getChatModel env p)
          (Some (JString text)) (chatHistory p) = Throw e ->
        fst (post_chat fw env (Some (JObject props)) p)
        = Normal {| status := 500; body := apology |}
        /\ chatHistory (snd (post_chat fw env (Some (JObject props)) p))
           = chatHistory p).
Proof.
  intros Hm. rewrite post_chat_paths. cbn [prop]. rewrite Hm. cbv zeta.
  split; intros x Hx; rewrite Hx; cbn [fst snd chatHistory];
    [rewrite <- app_assoc|]; split; reflexivity.
Qed.

Lemma chat_follows_agent_witness :
  fst (post_chat
         {| agent_invoke := fun _ _ _ _ => Normal "There are 3 games.";
            human_accepts := fun _ => Normal tt |}
         {| OPENAI_API_KEY := None; OPENAI_API_BASE_URL := None;
            GEMINI_API_KEY := Some "k3y" |}
         (Some (JObject [("message", JString "How many games are there?")]))
         boot)
  = Normal {| status := 200;
              body := JObject [("reply", JString "There are 3 games.")] |}.
Proof.
  destruct (chat_follows_agent
              {| agent_invoke := fun _ _ _ _ => Normal "There are 3 games.";
                 human_accepts := fun _ => Normal tt |}
              {| OPENAI_API_KEY := None; OPENAI_API_BASE_URL := None;
                 GEMINI_API_KEY := Some "k3y" |}
              [("message", JString "How many games are there?")]
              "How many games are there?" boot eq_refl) as [Hok _].
  apply (Hok "There are 3 games." eq_refl).
Defined.

(** *** What holds after any sequence of requests *)

Lemma exchanges_app history message output :
  exchanges history ->
  exchanges (history ++ [HumanMessage message; AIMessage output]).
Proof.
  revert history. fix IH 1.
  intros [|[m|o] [|[m'|o'] rest]]; cbn; try tauto.
  apply IH.
Qed.

Lemma handle_steady fw env req p :
  steady p -> steady (snd (handle fw env req p)).
Proof.
  intros [Hm Hh]. destruct req as [|req_body|req_body]; cbn [handle].
  - split; assumption.
  - destruct (is_string (prop "model" req_body) "gemini"
              || is_string (prop "model" req_body) "openai") eqn:Hv.
    + run_handler.
      destruct req_body as [[| | | | |props]|]; try discriminate Hv.
      cbn [prop] in *. rewrite Hv. cbn [snd].
      apply orb_prop in Hv as [Hv|Hv]; apply is_string_eq in Hv;
        rewrite Hv; split; cbn; auto.
    + apply orb_false_elim in Hv as [Hg Ho].
      rewrite (post_settings_invalid_state req_body p Hg Ho).
      split; assumption.
  - destruct (post_chat_state fw env req_body p)
      as [Hsel [Hhist|(message & output & Hhist)]];
      split; rewrite ?Hsel, ?Hhist; auto using exchanges_app.
Qed.

Lemma serve_steady fw env reqs p :
  steady p -> steady (snd (serve fw env reqs p)).
Proof.
  revert p. induction reqs as [|req reqs IH]; intros p Hp; [exact Hp|].
  cbn [serve]. pose proof (handle_steady fw env req p Hp) as Hstep.
  destruct (handle fw env req p) as [r p']. cbn [snd] in Hstep.
  specialize (IH p' Hstep). destruct (serve fw env reqs p') as [rs p''].
  exact IH.
Qed.

(** Whatever requests arrive, in whatever order and with whatever
    bodies, the selected model is one of ['gemini'] and ['openai']. *)
Theorem selected_model_is_known fw env reqs :
  selectedModel (snd (serve fw env reqs boot)) = "gemini"
  \/ selectedModel (snd (serve fw env reqs boot)) = "openai".
Proof.
  apply (serve_steady fw env reqs boot). split; [left; reflexivity|exact I].
Qed.

(** Whatever requests arrive and however the agent behaves, the history
    is a sequence of complete exchanges: each human message is followed
    by the reply to it, and no reply stands alone. *)
Theorem history_is_exchanges fw env reqs :
  exchanges (chatHistory (snd (serve fw env reqs boot))).
Proof.
  apply (serve_steady fw env reqs boot). split; [left; reflexivity|exact I].
Qed.

(** The model answers for the selection: the OpenAI-compatible client
    exactly when ['openai'] is selected, the Gemini client otherwise. *)
Theorem chat_model_follows_selection env p :
  (selectedModel p = "openai" ->
   getChatModel env p
   = ChatOpenAI "ollama/llama3" (OPENAI_API_KEY env) (OPENAI_API_BASE_URL env) 0)
  /\ (selectedModel p <> "openai" ->
      getChatModel env p
      = ChatGoogleGenerativeAI "models/gemini-2.5-flash" (GEMINI_API_KEY env) 0).
Proof.
  unfold getChatModel.
  destruct (String.eqb_spec (selectedModel p) "openai"); split; congruence.
Qed.

(** A switch followed by a chat: the agent runs on the model just
    selected and is given an empty history, whatever the conversation
    with the previous model was. *)
Theorem switch_then_chat fw env model_props model chat_props p :
  own model_props "model" = Some (JString model) ->
  model = "gemini" \/ model = "openai" ->
  runs (snd (serve fw env
               [PostSettings (Some (JObject model_props));
                PostChat (Some (JObject chat_props))] p))
  = (runs p
     ++ [{| llm := if String.eqb model "openai"
                   then ChatOpenAI "ollama/llama3" (OPENAI_API_KEY env)
                          (OPENAI_API_BASE_URL env) 0
                   else ChatGoogleGenerativeAI "models/gemini-2.5-flash"
                          (GEMINI_API_KEY env) 0;
            input := own chat_props "message";
            chat_history := [] |}])%list.
Proof.
  intros Hm Hv. cbn [serve handle].
  rewrite (post_settings_valid model_props model p Hm Hv).
  rewrite post_chat_paths. cbv zeta. cbn [prop].
  unfold getChatModel. cbn [selectedModel chatHistory runs].
  destruct (agent_invoke fw _ _ _ _) as [output|e]; [|reflexivity].
  destruct (match own chat_props "message" with
            | Some (JString _) => Normal tt
            | _ => human_accepts fw (own chat_props "message")
            end); reflexivity.
Qed.

Lemma switch_then_chat_witness :
  runs (snd (serve
               {| agent_invoke := fun _ _ _ _ => Normal "hi";
                  human_accepts := fun _ => Normal tt |}
               {| OPENAI_API_KEY := Some "sk"; OPENAI_API_BASE_URL := None;
                  GEMINI_API_KEY := None |}
               [PostSettings (Some (JObject [("model", JString "openai")]));
                PostChat (Some (JObject [("message", JString "hello")]))]
               {| selectedModel := "gemini";
                  chatHistory := [HumanMessage (Some (JString "old")); AIMessage "older"];
                  runs := [] |}))
  = [{| llm := ChatOpenAI "ollama/llama3" (Some "sk") None 0;
        input := Some (JString "hello");
        chat_history := [] |}].
Proof.
  apply (switch_then_chat
           {| agent_invoke := fun _ _ _ _ => Normal "hi";
              human_accepts := fun _ => Normal tt |}
           {| OPENAI_API_KEY := Some "sk"; OPENAI_API_BASE_URL := None;
              GEMINI_API_KEY := None |}
           [("model", JString "openai")] "openai"
           [("message", JString "hello")]
           {| selectedModel := "gemini";
              chatHistory := [HumanMessage (Some (JString "old")); AIMessage "older"];
              runs := [] |}).
  - reflexivity.
  - right. reflexivity.
Defined.

End ServerFacts.

(** * Properties of the chat page *)

Module PageFacts.

Import Page.

Ltac run_listener :=
  unfold on_submit, appendMessage, set_input, get_input, fetch_post, member,
    try_catch, mbind, M_bind, mret, M_ret, throw, await.

(** A blank submission does nothing: when the field holds only white
    space, no request is sent, no message is added and the field keeps
    its text. *)
Theorem blank_submission_is_ignored br pg :
  trim (input_value pg) = "" ->
  on_submit br pg = (Normal tt, pg).
Proof. intros H. run_listener. rewrite H. reflexivity. Qed.

Lemma blank_submission_is_ignored_witness :
  on_submit {| post := fun _ _ => Throw (TypeError "Failed to fetch");
               number_toString := fun _ => "0" |}
    {| input_value := "   "; chat_container := []; sent := [] |}
  = (Normal tt, {| input_value := "   "; chat_container := []; sent := [] |}).
Proof.
  apply (blank_submission_is_ignored
           {| post := fun _ _ => Throw (TypeError "Failed to fetch");
              number_toString := fun _ => "0" |}
           {| input_value := "   "; chat_container := []; sent := [] |}).
  reflexivity.
Defined.

(** The listener on a text that is not blank, path by path. *)
Lemma on_submit_paths br pg :
  trim (input_value pg) <> "" ->
  on_submit br pg
  = (Normal tt,
     {| input_value := "";
        chat_container :=
          {| className := "bot-reply";
             innerHTML :=
               match post br "/chat"
                       (JObject [("message", JString (trim (input_value pg)))])
               with
               | Normal response =>
                   match json_body response with
                   | Normal JNull => "Sorry, I am unable to connect to the server."
                   | Normal data =>
                       if ok response
                       then html_of (number_toString br) (prop "reply" (Some data))
                       else "Error: "
                            +:+ template (number_toString br)
                                  (prop "error" (Some data))
                   | Throw _ => "Sorry, I am unable to connect to the server."
                   end
               | Throw _ => "Sorry, I am unable to connect to the server."
               end |}
          :: {| className := "user-message";
                innerHTML := trim (input_value pg) |}
          :: chat_container pg;
        sent := sent pg
                ++ [("/chat",
                     JObject [("message", JString (trim (input_value pg)))])] |}).
Proof.
  intros Hne. run_listener.
  destruct (String.eqb_spec (trim (input_value pg)) "") as [E|_]; [contradiction|].
  cbn.
  destruct (post br _ _) as [response|e]; [|reflexivity].
  destruct (json_body response) as [data|e]; [|reflexivity].
  destruct (ok response); destruct data; reflexivity.
Qed.

(** Every other submission, whatever the network and the server do:
    the listener does not throw; the field is cleared; one request goes
    to [/chat] with the trimmed text as [message]; and exactly two
    messages are put on top of the container, the answer above the
    user's own text, which is inserted as markup exactly as typed. *)
Theorem submission_adds_two_messages br pg :
  trim (input_value pg) <> "" ->
  exists answer,
    on_submit br pg
    = (Normal tt,
       {| input_value := "";
          chat_container :=
            {| className := "bot-reply"; innerHTML := answer |}
            :: {| className := "user-message";
                  innerHTML := trim (input_value pg) |}
            :: chat_container pg;
          sent := sent pg
                  ++ [("/chat",
                       JObject [("message", JString (trim (input_value pg)))])] |}).
Proof.
  intros Hne. eexists. apply (on_submit_paths br pg Hne).
Qed.

Lemma submission_adds_two_messages_witness :
  exists answer,
    chat_container
      (snd (on_submit {| post := fun _ _ => Throw (TypeError "Failed to fetch");
                         number_toString := fun _ => "0" |}
              {| input_value := " <b>hi</b> "; chat_container := [];
                 sent := [] |}))
    = [{| className := "bot-reply"; innerHTML := answer |};
       {| className := "user-message"; innerHTML := "<b>hi</b>" |}].
Proof.
  destruct (submission_adds_two_messages
              {| post := fun _ _ => Throw (TypeError "Failed to fetch");
                 number_toString := fun _ => "0" |}
              {| input_value := " <b>hi</b> "; chat_container := [];
                 sent := [] |}) as [answer Hrun].
  - discriminate.
  - exists answer. rewrite Hrun. reflexivity.
Defined.

(** What the answer says. With a response that is [ok] and carries a
    text [reply], it is that reply; with one that is not [ok] and carries
    a text [error], it is ["Error: "] followed by that error; when the
    request fails or the body is not JSON, it is the fixed apology. *)
Theorem answer_shown br pg :
  trim (input_value pg) <> "" ->
  let request := JObject [("message", JString (trim (input_value pg)))] in
  let top := head (chat_container (snd (on_submit br pg))) in
  (forall response props reply,
     post br "/chat" request = Normal response ->
     ok response = true ->
     json_body response = Normal (JObject props) ->
     own props "reply" = Some (JString reply) ->
     top = Some {| className := "bot-reply"; innerHTML := reply |})
  /\ (forall response props error,
        post br "/chat" request = Normal response ->
        ok response = false ->
        json_body response = Normal (JObject props) ->
        own props "error" = Some (JString error) ->
        top = Some {| className := "bot-reply";
                      innerHTML := "Error: " +:+ error |})
  /\ (forall e,
        post br "/chat" request = Throw e
        \/ (exists response,
              post br "/chat" request = Normal response
              /\ json_body response = Throw e) ->
        top = Some {| className := "bot-reply";
                      innerHTML := "Sorry, I am unable to connect to the server." |}).
Proof.
  intros Hne request top. subst request top.
  rewrite (on_submit_paths br pg Hne). cbn [snd chat_container head].
  repeat split.
  - intros response props reply -> -> -> Hr. cbn. rewrite Hr. reflexivity.
  - intros response props error -> -> -> He. cbn. rewrite He. reflexivity.
  - intros e [->|(response & -> & ->)]; reflexivity.
Qed.

Lemma answer_shown_witness :
  head (chat_container
          (snd (on_submit
                  {| post := fun _ _ =>
                       Normal {| ok := false;
                                 json_body :=
                                   Normal (JObject [("error", JString "busy")]) |};
                     number_toString := fun _ => "0" |}
                  {| input_value := "hello"; chat_container := []; sent := [] |})))
  = Some {| className := "bot-reply"; innerHTML := "Error: busy" |}.
Proof.
  destruct (answer_shown
              {| post := fun _ _ =>
                   Normal {| ok := false;
                             json_body :=
                               Normal (JObject [("error", JString "busy")]) |};
                 number_toString := fun _ => "0" |}
              {| input_value := "hello"; chat_container := []; sent := [] |})
    as (_ & Herr & _).
  - discriminate.
  - apply (Herr {| ok := false;
                   json_body := Normal (JObject [("error", JString "busy")]) |}
             [("error", JString "busy")] "busy"); reflexivity.
Defined.

(** The page and the server together: for a text message, the answer
    on top of the container is the agent's output when the run
    resolves, and ["Error: "] followed by the server's apology when the
    run rejects. *)
Theorem page_shows_what_the_agent_did fw env p number pg :
  trim (input_value pg) <> "" ->
  let message := Some (JString (trim (input_value pg))) in
  let top :=
    head (chat_container (snd (on_submit (wired fw env p number) pg))) in
  (forall output,
     Server.agent_invoke fw (length (Server.runs p))
       (Server.getChatModel env p) message (Server.chatHistory p)
     = Normal output ->
     top = Some {| className := "bot-reply"; innerHTML := output |})
  /\ (forall e,
        Server.agent_invoke fw (length (Server.runs p))
          (Server.getChatModel env p) message (Server.chatHistory p)
        = Throw e ->
        top = Some {| className := "bot-reply";
                      innerHTML := "Error: I encountered an issue processing your request. Please try again later." |}).
Proof.
  intros Hne message top. subst message top.
  rewrite (on_submit_paths (wired fw env p number) pg Hne).
  cbn [snd chat_container head wired post number_toString].
  rewrite ServerFacts.post_chat_paths. cbv zeta. cbn [prop own].
  change (String.eqb "message" "message") with true. cbv iota.
  split; intros x Hx; rewrite Hx; reflexivity.
Qed.

Lemma page_shows_what_the_agent_did_witness :
  head (chat_container
          (snd (on_submit
                  (wired {| Server.agent_invoke := fun _ _ _ _ =>
                              Throw (TypeError "quota exceeded");
                            Server.human_accepts := fun _ => Normal tt |}
                     {| Server.OPENAI_API_KEY := None;
                        Server.OPENAI_API_BASE_URL := None;
                        Server.GEMINI_API_KEY := None |}
                     Server.boot (fun _ => "0"))
                  {| input_value := "list the games"; chat_container := [];
                     sent := [] |})))
  = Some {| className := "bot-reply";
            innerHTML := "Error: I encountered an issue processing your request. Please try again later." |}.
Proof.
  destruct (page_shows_what_the_agent_did
              {| Server.agent_invoke := fun _ _ _ _ =>
                   Throw (TypeError "quota exceeded");
                 Server.human_accepts := fun _ => Normal tt |}
              {| Server.OPENAI_API_KEY := None;
                 Server.OPENAI_API_BASE_URL := None;
                 Server.GEMINI_API_KEY := None |}
              Server.boot (fun _ => "0")
              {| input_value := "list the games"; chat_container := [];
                 sent := [] |}) as [_ Hrejected].
  - discriminate.
  - apply (Hrejected (TypeError "quota exceeded")). reflexivity.
Defined.

End PageFacts.
